(** * Ping monitor: a shallow embedding of [main.go] and its properties

  The monitor probes a fixed host once per tick, keeps the latencies of the
  successful probes and the timestamps of the failed ones, and renders a
  daily report either to a Discord webhook or to the console.

  Data follows the Go program: [float64] is the kernel's binary64 type,
  [string] is a sequence of bytes (so [length] is Go's [len]), slices are
  lists, and Go's [int] lengths are converted to floats the way Go does. *)

From Stdlib Require Import ZArith List String Ascii Bool Lia.
From Stdlib Require Import Floats.
Import ListNotations.

Local Open Scope string_scope.
Local Open Scope Z_scope.

(** ** Go runtime helpers: strings *)

Module Strings.

(** [strings.Repeat]. *)
Fixpoint Repeat (s : string) (count : nat) : string :=
  match count with
  | O => ""
  | S n => s ++ Repeat s n
  end.

(** [strings.Contains]: does [substr] occur somewhere in [s]? *)
Fixpoint Contains (s substr : string) : bool :=
  String.prefix substr s ||
  match s with
  | EmptyString => false
  | String _ rest => Contains rest substr
  end.

(** [strings.Join]. *)
Definition Join (elems : list string) (sep : string) : string :=
  String.concat sep elems.

(** The slice expression [s[:n]] on a string at least [n] bytes long. *)
Definition slice_to (s : string) (n : nat) : string :=
  String.substring 0 n s.

End Strings.

(** ** Go runtime helpers: formatting verbs *)

Module Fmt.

Definition digit (d : Z) : ascii :=
  ascii_of_nat (48 + Z.to_nat d).

(** Decimal digits of a non-negative number, most significant first.
    [fuel] bounds the number of digits. *)
Fixpoint digits_from (fuel : nat) (n : Z) (acc : string) : string :=
  match fuel with
  | O => acc
  | S fuel' =>
      let acc' := String (digit (n mod 10)) acc in
      if n <? 10 then acc' else digits_from fuel' (n / 10) acc'
  end.

Definition unsigned (n : Z) : string :=
  digits_from (S (Z.to_nat (Z.log2 n))) n "".

(** The verb [%d]. *)
Definition d (n : Z) : string :=
  if n <? 0 then "-" ++ unsigned (- n) else unsigned n.

(** Left padding with zeros up to [width] bytes (the verb [%0Nd] on a
    non-negative number, as [time.Format] uses it). *)
Definition zero_pad (width : nat) (s : string) : string :=
  Strings.Repeat "0" (width - String.length s) ++ s.

(** Division rounding to nearest, ties to even: [num / den] for
    [0 <= num] and [0 < den]. *)
Definition div_half_even (num den : Z) : Z :=
  let q := num / den in
  let r := num mod den in
  match 2 * r ?= den with
  | Lt => q
  | Gt => q + 1
  | Eq => if Z.even q then q else q + 1
  end.

(** [|x| * 10^prec] rounded to the nearest integer, ties to even, for the
    finite float with mantissa [m] and exponent [e]. *)
Definition scaled (prec : nat) (m : positive) (e : Z) : Z :=
  let p := 10 ^ Z.of_nat prec in
  if 0 <=? e then Z.pos m * 2 ^ e * p
  else div_half_even (Z.pos m * p) (2 ^ (- e)).

Definition fixed (prec : nat) (n : Z) : string :=
  let p := 10 ^ Z.of_nat prec in
  match prec with
  | O => unsigned n
  | _ => unsigned (n / p) ++ "." ++ zero_pad prec (unsigned (n mod p))
  end.

Definition sign (s : bool) : string := if s then "-" else "".

(** The verbs [%.1f], [%.2f], ...: the exact value of the float, correctly
    rounded to [prec] decimals. *)
Definition f (prec : nat) (x : float) : string :=
  match Prim2SF x with
  | S754_nan => "NaN"
  | S754_infinity s => if s then "-Inf" else "+Inf"
  | S754_zero s => sign s ++ fixed prec 0
  | S754_finite s m e => sign s ++ fixed prec (scaled prec m e)
  end.

End Fmt.

(** ** Go runtime helpers: broken-down local time *)

Module Time.

(** A [time.Time] as [Format] sees it: the civil date and the time of day
    in the local zone. *)
Record t := mk {
  year : Z; month : Z; day : Z;
  hour : Z; minute : Z; second : Z
}.

Definition two (n : Z) : string := Fmt.zero_pad 2 (Fmt.d n).

(** [t.Format("2006-01-02")]. *)
Definition Format_date (x : t) : string :=
  Fmt.zero_pad 4 (Fmt.d (year x)) ++ "-" ++ two (month x) ++ "-" ++ two (day x).

(** [t.Format("15:04:05")]. *)
Definition Format_clock (x : t) : string :=
  two (hour x) ++ ":" ++ two (minute x) ++ ":" ++ two (second x).

(** The ranges Go's [time] package keeps the fields in. *)
Definition valid_clock (x : t) : Prop :=
  0 <= hour x < 24 /\ 0 <= minute x < 60 /\ 0 <= second x < 60.

End Time.

(** ** Data model *)

Definition nl : string := String (ascii_of_nat 10) "".

(** A Go [error], by its message. *)
Definition error := string.

Record Config := { DiscordWebhookURL : string }.

Record PingResult := {
  Timestamp : Time.t;
  ResponseTime : float;
  Success : bool
}.

(** A channel of [struct{}] that is only ever closed. *)
Inductive channel := chan_open | chan_closed.

(** [PingMonitor] without its mutex: the model runs one method at a time. *)
Record PingMonitor := {
  targetIP : string;
  pingInterval : Z;
  pingResults : list PingResult;
  unreachableTimes : list Time.t;
  running : bool;
  stopChan : channel;
  config : Config;
  defaultGateway : string;
  localIP : string
}.

Record EmbedField := { Name : string; Value : string; Inline : bool }.

Record EmbedFooter := { Text : string }.

Record DiscordEmbed := {
  Title : string;
  Description : string;
  Color : Z;
  Fields : list EmbedField;
  EmbedTimestamp : string;
  Footer : EmbedFooter
}.

Record DiscordMessage := { Embeds : list DiscordEmbed }.

Definition set_pingResults (v : list PingResult) (pm : PingMonitor) : PingMonitor :=
  {| targetIP := targetIP pm; pingInterval := pingInterval pm;
     pingResults := v; unreachableTimes := unreachableTimes pm;
     running := running pm; stopChan := stopChan pm; config := config pm;
     defaultGateway := defaultGateway pm; localIP := localIP pm |}.

Definition set_unreachableTimes (v : list Time.t) (pm : PingMonitor) : PingMonitor :=
  {| targetIP := targetIP pm; pingInterval := pingInterval pm;
     pingResults := pingResults pm; unreachableTimes := v;
     running := running pm; stopChan := stopChan pm; config := config pm;
     defaultGateway := defaultGateway pm; localIP := localIP pm |}.

Definition set_running (v : bool) (pm : PingMonitor) : PingMonitor :=
  {| targetIP := targetIP pm; pingInterval := pingInterval pm;
     pingResults := pingResults pm; unreachableTimes := unreachableTimes pm;
     running := v; stopChan := stopChan pm; config := config pm;
     defaultGateway := defaultGateway pm; localIP := localIP pm |}.

Definition set_stopChan (v : channel) (pm : PingMonitor) : PingMonitor :=
  {| targetIP := targetIP pm; pingInterval := pingInterval pm;
     pingResults := pingResults pm; unreachableTimes := unreachableTimes pm;
     running := running pm; stopChan := v; config := config pm;
     defaultGateway := defaultGateway pm; localIP := localIP pm |}.

(** [len] of a slice, a Go [int]. *)
Definition len {A : Type} (l : list A) : Z := Z.of_nat (List.length l).

(** The conversion [float64(n)] of a Go integer, exact or correctly rounded
    for [|n| < 2^63]. *)
Definition float64_of_int (n : Z) : float :=
  if n <? 0 then (- of_uint63 (Uint63.of_Z (- n)))%float
  else of_uint63 (Uint63.of_Z n).

(** ** What the outside world answers *)

(** One run of the external [ping] command: its standard output, its error
    (a non-zero exit status or a failure to start) and the time [time.Since]
    measured around it, in nanoseconds. *)
Record CmdRun := {
  cmd_output : string;
  cmd_err : option error;
  cmd_elapsed : Z
}.

(** The answer of [http.Post]: a transport error, or a response. *)
Inductive PostResult :=
| PostError (err : error)
| PostResponse (StatusCode : Z) (Body : string).

(** What one call of [sendDailyReport] reads from outside: [time.Now()] in
    RFC 3339 form, and the webhook's answer should a request be made. *)
Record ReportEnv := { now_RFC3339 : string; webhook : PostResult }.

(** Library functions the program calls and the model leaves abstract. *)
Class GoRuntime := {
  (** [runtime.GOOS] *)
  GOOS : string;
  (** [regexp.MustCompile(pattern).FindStringSubmatch(s)] *)
  FindStringSubmatch : string -> string -> list string;
  (** [strconv.ParseFloat(s, 64)], [None] when it returns an error *)
  ParseFloat : string -> option float;
  (** the verb [%v] on a [time.Duration] *)
  Duration_String : Z -> string
}.

(** ** Observable effects and the method monad *)

(** What a method does to the outside: a write to standard output (one
    event per [fmt.Printf] or [fmt.Println]), the start of an external
    command, a request to the webhook, and, to count the reports, the entry
    into [sendDailyReport]. *)
Inductive event :=
| Stdout (s : string)
| Exec (argv : list string)
| HttpPost (url : string) (message : DiscordMessage)
| Enter_sendDailyReport (reportDate : string).

Inductive result (A : Type) :=
| Ok (a : A)
| Panic (msg : string).

Arguments Ok {A} a.
Arguments Panic {A} msg.

(** A method body: from the monitor's state to a result, the new state and
    the events emitted on the way. A panic keeps what happened before it. *)
Definition M (A : Type) : Type :=
  PingMonitor -> result A * PingMonitor * list event.

Definition ret {A : Type} (a : A) : M A :=
  fun pm => (Ok a, pm, []).

Definition bind {A B : Type} (m : M A) (k : A -> M B) : M B :=
  fun pm =>
    match m pm with
    | (Ok a, pm1, tr1) =>
        match k a pm1 with
        | (r, pm2, tr2) => (r, pm2, (tr1 ++ tr2)%list)
        end
    | (Panic msg, pm1, tr1) => (Panic msg, pm1, tr1)
    end.

Definition get : M PingMonitor := fun pm => (Ok pm, pm, []).

Definition modify (g : PingMonitor -> PingMonitor) : M unit :=
  fun pm => (Ok tt, g pm, []).

Definition emit (e : event) : M unit := fun pm => (Ok tt, pm, [e]).

Definition panic {A : Type} (msg : string) : M A :=
  fun pm => (Panic msg, pm, []).

Definition Printf (s : string) : M unit := emit (Stdout s).

Definition Println (s : string) : M unit := emit (Stdout (s ++ nl)).

Declare Scope go_scope.
Delimit Scope go_scope with go.

Notation "x <- m ;; k" := (bind m (fun x => k))
  (at level 100, m at next level, right associativity) : go_scope.
Notation "' p <- m ;; k" := (bind m (fun x => match x with p => k end))
  (at level 100, p pattern, m at next level, right associativity) : go_scope.
Notation "m ;; k" := (bind m (fun _ => k))
  (at level 100, right associativity) : go_scope.

Local Open Scope go_scope.

(** Projections of a run. *)
Definition outcome {A : Type} (r : result A * PingMonitor * list event) : result A :=
  fst (fst r).

Definition final {A : Type} (r : result A * PingMonitor * list event) : PingMonitor :=
  snd (fst r).

Definition trace {A : Type} (r : result A * PingMonitor * list event) : list event :=
  snd r.

(** [close(ch)]: closing a closed channel panics. *)
Definition close_stopChan : M unit :=
  pm <- get ;;
  match stopChan pm with
  | chan_open => modify (set_stopChan chan_closed)
  | chan_closed => panic "close of closed channel"
  end.

(** ** The monitor's methods *)

Section Methods.

Context {rt : GoRuntime}.

(** [NewPingMonitor], given the configuration [loadConfig] read and what
    [getDefaultGateway] and [getLocalIP] found. *)
Definition NewPingMonitor (cfg : Config) (gateway ip : string) : PingMonitor :=
  {| targetIP := "8.8.8.8"; pingInterval := 1 * 1000000000;
     pingResults := []; unreachableTimes := [];
     running := true; stopChan := chan_open; config := cfg;
     defaultGateway := gateway; localIP := ip |}.

(** [pingHost]: one probe; [run] is what the [ping] command did. *)
Definition pingHost (host : string) (run : CmdRun) : M (float * option error) :=
  emit (Exec (if (GOOS =? "windows")%string
              then ["ping"; "-n"; "1"; "-w"; "3000"; host]
              else ["ping"; "-c"; "1"; "-W"; "3"; host])) ;;
  let output := cmd_output run in
  let duration := cmd_elapsed run in
  match cmd_err run with
  | Some err => ret (0%float, Some err)
  | None =>
      let measured := (float64_of_int duration / 1000000)%float in
      if (GOOS =? "windows")%string then
        match FindStringSubmatch "時間[<>=]*(\d+)ms" output with
        | _ :: group :: _ =>
            match ParseFloat group with
            | Some ms => ret (ms, None)
            | None => ret (measured, None)
            end
        | _ => ret (measured, None)
        end
      else
        match FindStringSubmatch "time=(\d+\.?\d*).*ms" output with
        | _ :: group :: _ =>
            match ParseFloat group with
            | Some ms => ret (ms, None)
            | None => ret (measured, None)
            end
        | _ => ret (measured, None)
        end
  end.

(** [resetDailyData]. *)
Definition resetDailyData : M unit :=
  modify (set_pingResults []) ;;
  modify (set_unreachableTimes []).

(** The loop of [formatUnreachablePeriods]: at most [maxDisplay] entries. *)
Fixpoint collect_periods (maxDisplay i : Z) (ts : list Time.t) (periods : list string)
  : list string :=
  match ts with
  | [] => periods
  | t :: rest =>
      if maxDisplay <=? i then periods
      else collect_periods maxDisplay (i + 1) rest (periods ++ [Time.Format_clock t])%list
  end.

(** [formatUnreachablePeriods]. *)
Definition formatUnreachablePeriods (pm : PingMonitor) : string :=
  if len (unreachableTimes pm) =? 0 then "なし"
  else
    let maxDisplay := 10 in
    let periods := collect_periods maxDisplay 0 (unreachableTimes pm) [] in
    let result := Strings.Join periods nl in
    let result :=
      if maxDisplay <? len (unreachableTimes pm)
      then result ++ nl ++ "... 他" ++ Fmt.d (len (unreachableTimes pm) - maxDisplay) ++ "件"
      else result in
    if (1024 <? String.length result)%nat
    then Strings.slice_to result 1020 ++ "..."
    else result.

(** [sendToDiscord]: one [http.Post]; anything but 204 is an error.
    [json.Marshal] cannot fail on a [DiscordMessage] (strings, integers and
    booleans only), so the request carries the message itself. *)
Definition sendToDiscord (message : DiscordMessage) (answer : PostResult)
  : M (option error) :=
  pm <- get ;;
  emit (HttpPost (DiscordWebhookURL (config pm)) message) ;;
  match answer with
  | PostError err => ret (Some err)
  | PostResponse status body =>
      if negb (status =? 204)
      then ret (Some ("Discord API error: " ++ Fmt.d status ++ " - " ++ body))
      else ret None
  end.

(** The statistics loop of [printDailyReport]. *)
Definition print_loop (acc : float * float * float) (result : PingResult)
  : float * float * float :=
  let '(sum, maxTime, minTime) := acc in
  let sum := (sum + ResponseTime result)%float in
  let maxTime := if (maxTime <? ResponseTime result)%float
                 then ResponseTime result else maxTime in
  let minTime := if (ResponseTime result <? minTime)%float
                 then ResponseTime result else minTime in
  (sum, maxTime, minTime).

(** [successRate] of [printDailyReport], in percent. *)
Definition print_successRate (pm : PingMonitor) : float :=
  let totalPings := len (pingResults pm) + len (unreachableTimes pm) in
  if 0 <? totalPings
  then (float64_of_int (len (pingResults pm)) / float64_of_int totalPings * 100)%float
  else 0%float.

(** [avgTime], [maxTime] and [minTime] of [printDailyReport]; they exist
    only inside the branch [len(pm.pingResults) > 0]. *)
Definition print_latency (pm : PingMonitor) : option (float * float * float) :=
  match pingResults pm with
  | [] => None
  | first :: _ =>
      let '(sum, maxTime, minTime) :=
        fold_left print_loop (pingResults pm)
                  (0%float, ResponseTime first, ResponseTime first) in
      let avgTime := (sum / float64_of_int (len (pingResults pm)))%float in
      Some (avgTime, maxTime, minTime)
  end.

(** The listing loop of [printDailyReport]; [total] is
    [len(pm.unreachableTimes)]. *)
Fixpoint print_unreachable (i total : Z) (ts : list Time.t) : M unit :=
  match ts with
  | [] => ret tt
  | t :: rest =>
      if 10 <=? i then Printf ("  ... 他" ++ Fmt.d (total - 10) ++ "件" ++ nl)
      else (Printf ("  " ++ Time.Format_clock t ++ nl) ;;
            print_unreachable (i + 1) total rest)
  end.

(** [printDailyReport]. *)
Definition printDailyReport (reportDate : string) : M unit :=
  pm <- get ;;
  Printf (nl ++ Strings.Repeat "=" 50 ++ nl) ;;
  Printf ("📊 Ping Monitor 日次レポート - " ++ reportDate ++ nl) ;;
  Printf (Strings.Repeat "=" 50 ++ nl) ;;
  Printf ("対象: Google (8.8.8.8)" ++ nl) ;;
  Printf ("送信元: " ++ localIP pm ++ nl) ;;
  let totalPings := len (pingResults pm) + len (unreachableTimes pm) in
  let successRate := print_successRate pm in
  match print_latency pm with
  | None => ret tt
  | Some (avgTime, maxTime, minTime) =>
      Printf (nl ++ "📊 応答時間統計:" ++ nl) ;;
      Printf ("  平均: " ++ Fmt.f 1 avgTime ++ "ms" ++ nl) ;;
      Printf ("  最大: " ++ Fmt.f 1 maxTime ++ "ms" ++ nl) ;;
      Printf ("  最小: " ++ Fmt.f 1 minTime ++ "ms" ++ nl)
  end ;;
  Printf (nl ++ "📈 到達性統計:" ++ nl) ;;
  Printf ("  成功率: " ++ Fmt.f 2 successRate ++ "%" ++ nl) ;;
  Printf ("  成功回数: " ++ Fmt.d (len (pingResults pm)) ++ nl) ;;
  Printf ("  失敗回数: " ++ Fmt.d (len (unreachableTimes pm)) ++ nl) ;;
  Printf ("  総ping回数: " ++ Fmt.d totalPings ++ nl) ;;
  (if 0 <? len (unreachableTimes pm)
   then (Printf (nl ++ "⚠️ 到達不能時間:" ++ nl) ;;
         print_unreachable 0 (len (unreachableTimes pm)) (unreachableTimes pm))
   else ret tt) ;;
  Printf (Strings.Repeat "=" 50 ++ nl ++ nl).

(** The statistics loop of [sendDailyReport]. *)
Definition send_loop (acc : float * float * float) (result : PingResult)
  : float * float * float :=
  let '(sum, maxTime, minTime) := acc in
  let sum := (sum + ResponseTime result)%float in
  let maxTime := if (maxTime <? ResponseTime result)%float
                 then ResponseTime result else maxTime in
  let minTime := if (ResponseTime result <? minTime)%float
                 then ResponseTime result else minTime in
  (sum, maxTime, minTime).

(** [successRate] of [sendDailyReport], in percent. *)
Definition send_successRate (pm : PingMonitor) : float :=
  let totalPings := len (pingResults pm) + len (unreachableTimes pm) in
  if 0 <? totalPings
  then (float64_of_int (len (pingResults pm)) / float64_of_int totalPings * 100)%float
  else 0%float.

(** [avgTime], [maxTime] and [minTime] of [sendDailyReport]: declared
    with [var], so zero unless some probe succeeded. *)
Definition send_latency (pm : PingMonitor) : float * float * float :=
  match pingResults pm with
  | [] => (0%float, 0%float, 0%float)
  | first :: _ =>
      let '(sum, maxTime, minTime) :=
        fold_left send_loop (pingResults pm)
                  (0%float, ResponseTime first, ResponseTime first) in
      ((sum / float64_of_int (len (pingResults pm)))%float, maxTime, minTime)
  end.

(** The embed [sendDailyReport] builds from the monitor's state. *)
Definition daily_embed (pm : PingMonitor) (reportDate stamp : string) : DiscordEmbed :=
  let totalPings := len (pingResults pm) + len (unreachableTimes pm) in
  let successRate := send_successRate pm in
  let '(avgTime, maxTime, minTime) := send_latency pm in
  let unreachableCount := len (unreachableTimes pm) in
  let color := 65280 in
  let color := if (successRate <? 99)%float then 16750848 else color in
  let color := if (successRate <? 95)%float then 16711680 else color in
  let fields :=
    [ {| Name := "📊 応答時間統計";
         Value := "**平均**: " ++ Fmt.f 1 avgTime ++ "ms" ++ nl ++
                  "**最大**: " ++ Fmt.f 1 maxTime ++ "ms" ++ nl ++
                  "**最小**: " ++ Fmt.f 1 minTime ++ "ms";
         Inline := true |};
      {| Name := "📈 到達性統計";
         Value := "**成功率**: " ++ Fmt.f 2 successRate ++ "%" ++ nl ++
                  "**成功回数**: " ++ Fmt.d (len (pingResults pm)) ++ nl ++
                  "**失敗回数**: " ++ Fmt.d unreachableCount;
         Inline := true |};
      {| Name := "⏱️ 監視情報";
         Value := "**総ping回数**: " ++ Fmt.d totalPings ++ nl ++
                  "**監視間隔**: " ++ Duration_String (pingInterval pm);
         Inline := true |} ] in
  let fields :=
    if 0 <? unreachableCount
    then (fields ++ [ {| Name := "⚠️ 到達不能期間";
                         Value := formatUnreachablePeriods pm;
                         Inline := false |} ])%list
    else fields in
  {| Title := "🌐 Ping Monitor 日次レポート";
     Description := "**日付**: " ++ reportDate ++ nl ++
                    "**対象**: Google (8.8.8.8)" ++ nl ++
                    "**送信元**: " ++ localIP pm;
     Color := color;
     Fields := fields;
     EmbedTimestamp := stamp;
     Footer := {| Text := "Ping Monitor by Go" |} |}.

(** [sendDailyReport]. *)
Definition sendDailyReport (reportDate : string) (env : ReportEnv) : M unit :=
  emit (Enter_sendDailyReport reportDate) ;;
  pm <- get ;;
  if (DiscordWebhookURL (config pm) =? "")%string
     || Strings.Contains (DiscordWebhookURL (config pm)) "YOUR_WEBHOOK" then
    Println "Discord Webhook URLが設定されていないため、レポートをコンソールに出力します：" ;;
    printDailyReport reportDate
  else
    let embed := daily_embed pm reportDate (now_RFC3339 env) in
    let message := {| Embeds := [embed] |} in
    err <- sendToDiscord message (webhook env) ;;
    match err with
    | Some e =>
        Printf ("❌ Discord送信エラー: " ++ e ++ nl) ;;
        printDailyReport reportDate
    | None =>
        Printf ("✅ " ++ reportDate ++ "の日次レポートをDiscordに送信しました" ++ nl)
    end.

(** [Stop], called at time [now]. *)
Definition Stop (now : Time.t) (env : ReportEnv) : M unit :=
  modify (set_running false) ;;
  close_stopChan ;;
  pm <- get ;;
  if (0 <? len (pingResults pm)) || (0 <? len (unreachableTimes pm)) then
    Println "現在の統計を送信中..." ;;
    sendDailyReport (Time.Format_date now) env
  else ret tt.

(** What one tick of [pingLoop] meets: the ticker's time, the runs of
    [ping] against the target and the gateway, and the outside of a
    report should the day have changed. [tick_beats_stop] is what the
    [select] does when [stopChan] is closed by the time the loop reaches
    it: Go picks at random among the cases that are ready, so a tick that
    is already waiting may still be taken. *)
Record Tick := {
  tick_now : Time.t;
  tick_target : CmdRun;
  tick_gateway : CmdRun;
  tick_env : ReportEnv;
  tick_beats_stop : bool
}.

(** The day-change check at the head of a tick; returns the new [lastDay]. *)
Definition rollover (lastDay : string) (tk : Tick) : M string :=
  let currentDate := Time.Format_date (tick_now tk) in
  pm <- get ;;
  if negb (currentDate =? lastDay)%string && (0 <? len (pingResults pm)) then
    sendDailyReport lastDay (tick_env tk) ;;
    resetDailyData ;;
    ret currentDate
  else ret lastDay.

(** The probe and its recording, the rest of a tick. *)
Definition probe (tk : Tick) : M unit :=
  let now := tick_now tk in
  pm <- get ;;
  ' (responseTime, err) <- pingHost (targetIP pm) (tick_target tk) ;;
  match err with
  | None =>
      modify (fun pm => set_pingResults
                (pingResults pm ++ [ {| Timestamp := now;
                                        ResponseTime := responseTime;
                                        Success := true |} ])%list pm) ;;
      Printf (Time.Format_clock now ++ " - Google ping: " ++
              Fmt.f 1 responseTime ++ "ms" ++ nl)
  | Some _ =>
      modify (fun pm => set_unreachableTimes (unreachableTimes pm ++ [now])%list pm) ;;
      Printf (Time.Format_clock now ++ " - Google到達不能" ++ nl) ;;
      if negb (defaultGateway pm =? "")%string then
        ' (gwResponse, gwErr) <- pingHost (defaultGateway pm) (tick_gateway tk) ;;
        match gwErr with
        | None =>
            Printf ("  -> デフォルトゲートウェイ(" ++ defaultGateway pm ++ "): " ++
                    Fmt.f 1 gwResponse ++ "ms" ++ nl)
        | Some _ =>
            Printf ("  -> デフォルトゲートウェイ(" ++ defaultGateway pm ++ "): 到達不能" ++ nl)
        end
      else ret tt
  end.

(** The [ticker.C] case of [pingLoop]'s [select]. *)
Definition tick (lastDay : string) (tk : Tick) : M string :=
  lastDay <- rollover lastDay tk ;;
  probe tk ;;
  ret lastDay.

(** The [for] loop of [pingLoop] over the ticks that arrive. With
    [stopChan] open the [select] waits for the tick and handles it. With
    [stopChan] closed it returns, unless the tick is waiting as well and
    the runtime picks that case. *)
Fixpoint pingLoop_from (lastDay : string) (ticks : list Tick) : M string :=
  match ticks with
  | [] => ret lastDay
  | tk :: rest =>
      pm <- get ;;
      match stopChan pm, tick_beats_stop tk with
      | chan_closed, false => ret lastDay
      | _, _ =>
          lastDay <- tick lastDay tk ;;
          pingLoop_from lastDay rest
      end
  end.

(** [pingLoop], started at time [start]. *)
Definition pingLoop (start : Time.t) (ticks : list Tick) : M string :=
  pm <- get ;;
  Printf ("Google(" ++ targetIP pm ++ ")へのpingモニタリングを開始します..." ++ nl) ;;
  Println "Ctrl+Cで停止できます" ;;
  pingLoop_from (Time.Format_date start) ticks.

End Methods.

(** ** Reading a trace *)

(** The dates [sendDailyReport] was called with, in order. *)
Definition reports (tr : list event) : list string :=
  flat_map (fun e => match e with Enter_sendDailyReport d => [d] | _ => [] end) tr.

(** The requests made to the webhook, in order. *)
Definition posts (tr : list event) : list (string * DiscordMessage) :=
  flat_map (fun e => match e with HttpPost url m => [(url, m)] | _ => [] end) tr.

(** The lines written to the console, in order. *)
Definition console (tr : list event) : list string :=
  flat_map (fun e => match e with Stdout s => [s] | _ => [] end) tr.

(** A method body that never panics and leaves the monitor as it found it. *)
Definition reads {A : Type} (m : M A) : Prop :=
  forall pm, exists a tr, m pm = (Ok a, pm, tr).

(** The accumulator: the two slices the statistics are computed from. *)
Definition accumulator (pm : PingMonitor) : list PingResult * list Time.t :=
  (pingResults pm, unreachableTimes pm).

(** The same tick with another run of [ping] against the gateway. *)
Definition with_gateway (gw : CmdRun) (tk : Tick) : Tick :=
  {| tick_now := tick_now tk; tick_target := tick_target tk;
     tick_gateway := gw; tick_env := tick_env tk;
     tick_beats_stop := tick_beats_stop tk |}.

(** The command line [pingHost] runs. *)
Definition ping_argv {rt : GoRuntime} (host : string) : list string :=
  if (GOOS =? "windows")%string
  then ["ping"; "-n"; "1"; "-w"; "3000"; host]
  else ["ping"; "-c"; "1"; "-W"; "3"; host].

(** ** Signs of binary64 values *)

(** A zero, a finite number or an infinity whose sign bit is clear. *)
Definition sign_clear (x : spec_float) : Prop :=
  match x with
  | S754_zero false | S754_infinity false | S754_finite false _ _ => True
  | _ => False
  end.

(** A float that is a number: it equals itself, which a NaN does not. *)
Definition is_number (x : float) : Prop := (x =? x)%float = true.

(** The latencies of the successful probes, oldest first. *)
Definition latencies (pm : PingMonitor) : list float :=
  map ResponseTime (pingResults pm).

(** ** The specification's words *)

(** The success rate of the specification: successes over all samples, zero
    when there is no sample; the reports show it as a percentage. *)
Definition spec_successRate (successes failures : Z) : float :=
  if successes + failures =? 0 then 0%float
  else (float64_of_int successes / float64_of_int (successes + failures) * 100)%float.

(** The left-to-right sum of a list of floats, starting from zero. *)
Definition float_sum (xs : list float) : float :=
  fold_left PrimFloat.add xs 0%float.

(** The latency the output of [ping] carries, if one can be parsed. *)
Definition parsed_latency {rt : GoRuntime} (output : string) : option float :=
  match FindStringSubmatch
          (if (GOOS =? "windows")%string
           then "時間[<>=]*(\d+)ms" else "time=(\d+\.?\d*).*ms") output with
  | _ :: group :: _ => ParseFloat group
  | _ => None
  end.

(** ** The renderings, line by line *)

(** The failure block of a report: the first ten times of day and, beyond
    ten, the count of the others. *)
Definition failure_lines (ts : list Time.t) : list string :=
  List.app (map Time.Format_clock (firstn 10 ts))
           (if 10 <? len ts then ["... 他" ++ Fmt.d (len ts - 10) ++ "件"] else []).

(** The latency block of the console report. *)
Definition console_latency (pm : PingMonitor) : list string :=
  match print_latency pm with
  | None => []
  | Some (avgTime, maxTime, minTime) =>
      [ nl ++ "📊 応答時間統計:" ++ nl;
        "  平均: " ++ Fmt.f 1 avgTime ++ "ms" ++ nl;
        "  最大: " ++ Fmt.f 1 maxTime ++ "ms" ++ nl;
        "  最小: " ++ Fmt.f 1 minTime ++ "ms" ++ nl ]
  end.

(** The reachability block of the console report. *)
Definition console_reachability (pm : PingMonitor) : list string :=
  [ nl ++ "📈 到達性統計:" ++ nl;
    "  成功率: " ++ Fmt.f 2 (print_successRate pm) ++ "%" ++ nl;
    "  成功回数: " ++ Fmt.d (len (pingResults pm)) ++ nl;
    "  失敗回数: " ++ Fmt.d (len (unreachableTimes pm)) ++ nl;
    "  総ping回数: " ++
      Fmt.d (len (pingResults pm) + len (unreachableTimes pm)) ++ nl ].

(** The failure block of the console report. *)
Definition console_failures (pm : PingMonitor) : list string :=
  if 0 <? len (unreachableTimes pm)
  then (nl ++ "⚠️ 到達不能時間:" ++ nl)
         :: map (fun l => "  " ++ l ++ nl) (failure_lines (unreachableTimes pm))
  else [].

(** Everything [printDailyReport] writes, one element per [Printf]. *)
Definition console_report (reportDate : string) (pm : PingMonitor) : list string :=
  List.app
    [ nl ++ Strings.Repeat "=" 50 ++ nl;
      "📊 Ping Monitor 日次レポート - " ++ reportDate ++ nl;
      Strings.Repeat "=" 50 ++ nl;
      "対象: Google (8.8.8.8)" ++ nl;
      "送信元: " ++ localIP pm ++ nl ]
    (List.app (console_latency pm)
       (List.app (console_reachability pm)
          (List.app (console_failures pm)
             [ Strings.Repeat "=" 50 ++ nl ++ nl ]))).

(** ** Startup: configuration and discovery *)

(** More of Go's [strings] package, on ASCII text. *)
Module Scan.

(** [strings.Split(s, "\n")]: the pieces between newlines; the empty
    string has one empty piece. *)
Fixpoint Split_lines (s : string) : list string :=
  match s with
  | EmptyString => [""]
  | String c rest =>
      if (nat_of_ascii c =? 10)%nat then "" :: Split_lines rest
      else match Split_lines rest with
           | piece :: pieces => String c piece :: pieces
           | [] => [String c ""]
           end
  end.

(** The ASCII white space of Go: tab, newline, vertical tab, form feed,
    carriage return and space. *)
Definition is_space (c : ascii) : bool :=
  let n := nat_of_ascii c in
  ((9 <=? n)%nat && (n <=? 13)%nat) || (n =? 32)%nat.

(** The bytes below 128. *)
Fixpoint ascii_only (s : string) : bool :=
  match s with
  | EmptyString => true
  | String c rest => (nat_of_ascii c <? 128)%nat && ascii_only rest
  end.

(** The fields of [s] after the field [word] that is being read. *)
Fixpoint fields_from (word s : string) : list string :=
  match s with
  | EmptyString =>
      match word with EmptyString => [] | _ => [word] end
  | String c rest =>
      if is_space c
      then match word with
           | EmptyString => fields_from "" rest
           | _ => word :: fields_from "" rest
           end
      else fields_from (word ++ String c "") rest
  end.

(** [strings.Fields] on a text of ASCII bytes, where Go splits around the
    runs of the six characters of [is_space]. On other text Go splits at
    the Unicode spaces too (U+0085, U+00A0, ...), which this function does
    not know: what is proved of it is proved under [ascii_only]. *)
Definition Fields (s : string) : list string := fields_from "" s.

(** [strings.HasPrefix]. *)
Definition HasPrefix (s prefix : string) : bool := String.prefix prefix s.

End Scan.

Definition set_config (v : Config) (pm : PingMonitor) : PingMonitor :=
  {| targetIP := targetIP pm; pingInterval := pingInterval pm;
     pingResults := pingResults pm; unreachableTimes := unreachableTimes pm;
     running := running pm; stopChan := stopChan pm; config := v;
     defaultGateway := defaultGateway pm; localIP := localIP pm |}.

Definition set_defaultGateway (v : string) (pm : PingMonitor) : PingMonitor :=
  {| targetIP := targetIP pm; pingInterval := pingInterval pm;
     pingResults := pingResults pm; unreachableTimes := unreachableTimes pm;
     running := running pm; stopChan := stopChan pm; config := config pm;
     defaultGateway := v; localIP := localIP pm |}.

Definition set_localIP (v : string) (pm : PingMonitor) : PingMonitor :=
  {| targetIP := targetIP pm; pingInterval := pingInterval pm;
     pingResults := pingResults pm; unreachableTimes := unreachableTimes pm;
     running := running pm; stopChan := stopChan pm; config := config pm;
     defaultGateway := defaultGateway pm; localIP := v |}.

(** What [NewPingMonitor] meets outside: the result of [os.ReadFile], what
    [json.Unmarshal] makes of a file's bytes, the output of the first and
    of the second route command ([None] when [cmd.Output] returns an
    error), and the local address of the UDP socket ([None] when [net.Dial]
    fails). *)
Record Startup := {
  config_read : string + error;
  unmarshal : string -> Config + error;
  route_primary : option string;
  route_secondary : option string;
  dialled : option string
}.

(** The loop of [getDefaultGateway] over the lines of [route print]. *)
Fixpoint scan_route_print (lines : list string) : option string :=
  match lines with
  | [] => None
  | line :: rest =>
      if Strings.Contains line "0.0.0.0" && negb (Strings.Contains line "Gateway") then
        match Scan.Fields line with
        | _ :: _ :: third :: _ => Some third
        | _ => scan_route_print rest
        end
      else scan_route_print rest
  end.

(** The loop of [getDefaultGateway] over the lines of [route -n]. *)
Fixpoint scan_route_n (lines : list string) : option string :=
  match lines with
  | [] => None
  | line :: rest =>
      if Scan.HasPrefix line "0.0.0.0" then
        match Scan.Fields line with
        | _ :: second :: _ => Some second
        | _ => scan_route_n rest
        end
      else scan_route_n rest
  end.

(** What the first route command yields, if anything. *)
Definition primary_gateway {rt : GoRuntime} (primary : option string) : option string :=
  match primary with
  | None => None
  | Some output =>
      if (GOOS =? "windows")%string then
        scan_route_print (Scan.Split_lines output)
      else
        match FindStringSubmatch "default via (\d+\.\d+\.\d+\.\d+)" output with
        | _ :: group :: _ => Some group
        | _ => None
        end
  end.

(** [getDefaultGateway], given the outputs of its commands. *)
Definition getDefaultGateway {rt : GoRuntime} (primary secondary : option string)
  : M string :=
  emit (Exec (if (GOOS =? "windows")%string
              then ["route"; "print"; "0.0.0.0"]
              else ["ip"; "route"; "show"; "default"])) ;;
  match primary_gateway primary with
  | Some gateway => ret gateway
  | None =>
      if negb (GOOS =? "windows")%string then
        emit (Exec ["route"; "-n"]) ;;
        match secondary with
        | Some output =>
            match scan_route_n (Scan.Split_lines output) with
            | Some gateway => ret gateway
            | None => ret "192.168.1.1"
            end
        | None => ret "192.168.1.1"
        end
      else ret "192.168.1.1"
  end.

(** [getLocalIP], given what the socket reports. *)
Definition getLocalIP (socket : option string) : string :=
  match socket with
  | None => "不明"
  | Some ip => ip
  end.

(** [loadConfig]. *)
Definition loadConfig (configFile : string) (env : Startup) : M (option error) :=
  match config_read env with
  | inr err =>
      ret (Some ("設定ファイル " ++ configFile ++ " が見つかりません: " ++ err))
  | inl data =>
      match unmarshal env data with
      | inr err =>
          ret (Some ("設定ファイル " ++ configFile ++ " の形式が正しくありません: " ++ err))
      | inl cfg =>
          modify (set_config cfg) ;;
          pm <- get ;;
          (if (DiscordWebhookURL (config pm) =? "")%string
              || Strings.Contains (DiscordWebhookURL (config pm)) "YOUR_WEBHOOK"
           then Println "警告: Discord Webhook URLが設定されていません。config.jsonを編集してください。"
           else ret tt) ;;
          ret None
      end
  end.

(** The [PingMonitor] literal at the head of [NewPingMonitor]: the fields
    it leaves out hold Go's zero values. *)
Definition new_monitor : PingMonitor :=
  {| targetIP := "8.8.8.8"; pingInterval := 1 * 1000000000;
     pingResults := []; unreachableTimes := [];
     running := true; stopChan := chan_open;
     config := {| DiscordWebhookURL := "" |};
     defaultGateway := ""; localIP := "" |}.

(** The body of [NewPingMonitor] after that literal; an error stands for
    the return of [nil, err]. *)
Definition NewPingMonitor_body {rt : GoRuntime} (configFile : string) (env : Startup)
  : M (option error) :=
  err <- loadConfig configFile env ;;
  match err with
  | Some e => ret (Some e)
  | None =>
      gateway <- getDefaultGateway (route_primary env) (route_secondary env) ;;
      modify (set_defaultGateway gateway) ;;
      Printf ("デフォルトゲートウェイ: " ++ gateway ++ nl) ;;
      modify (set_localIP (getLocalIP (dialled env))) ;;
      Printf ("送信元IPアドレス: " ++ getLocalIP (dialled env) ++ nl) ;;
      ret None
  end.

(** ** Reading a run of the loop *)

(** The commands started, in order. *)
Definition execs (tr : list event) : list (list string) :=
  flat_map (fun e => match e with Exec argv => [argv] | _ => [] end) tr.

(** The number of samples in the accumulator. *)
Definition samples (pm : PingMonitor) : Z :=
  len (pingResults pm) + len (unreachableTimes pm).

(** Two monitors that differ in the accumulator at most. *)
Definition same_setup (pm pm' : PingMonitor) : Prop :=
  targetIP pm' = targetIP pm /\ pingInterval pm' = pingInterval pm /\
  running pm' = running pm /\ stopChan pm' = stopChan pm /\
  config pm' = config pm /\ defaultGateway pm' = defaultGateway pm /\
  localIP pm' = localIP pm.

(** The latency [pingHost] returns for a run without error. *)
Definition latency_of {rt : GoRuntime} (run : CmdRun) : float :=
  match parsed_latency (cmd_output run) with
  | Some ms => ms
  | None => (float64_of_int (cmd_elapsed run) / 1000000)%float
  end.

(** The monitor after the probe of a tick has been recorded. *)
Definition record_probe {rt : GoRuntime} (tk : Tick) (pm : PingMonitor) : PingMonitor :=
  match cmd_err (tick_target tk) with
  | None =>
      set_pingResults
        (List.app (pingResults pm)
                  [ {| Timestamp := tick_now tk;
                       ResponseTime := latency_of (tick_target tk);
                       Success := true |} ]) pm
  | Some _ =>
      set_unreachableTimes (List.app (unreachableTimes pm) [tick_now tk]) pm
  end.

(** The ticks dated [date]. *)
Definition on_date (date : string) (ticks : list Tick) : Prop :=
  Forall (fun tk => Time.Format_date (tick_now tk) = date) ticks.

(** ** Sample values *)

Set Warnings "-inexact-float".

(** A Linux host. Its [FindStringSubmatch] knows the one pattern the Linux
    branch of [pingHost] compiles, and its [ParseFloat] reads the decimal
    numbers of at most fifteen digits, on which one correctly rounded
    division gives the nearest float. *)
Module LinuxHost.

Definition is_digit (c : ascii) : bool :=
  (48 <=? nat_of_ascii c)%nat && (nat_of_ascii c <=? 57)%nat.

(** The longest prefix of digits, and what follows it. *)
Fixpoint span_digits (s : string) : string * string :=
  match s with
  | EmptyString => ("", "")
  | String c rest =>
      if is_digit c
      then let '(ds, after) := span_digits rest in (String c ds, after)
      else ("", s)
  end.

(** The text up to the first newline, which [.] does not match. *)
Fixpoint line_of (s : string) : string :=
  match s with
  | EmptyString => ""
  | String c rest =>
      if (nat_of_ascii c =? 10)%nat then "" else String c (line_of rest)
  end.

(** The longest prefix of [line] that ends in [ms], as the greedy [.*ms]
    takes it. *)
Fixpoint upto_last_ms (line : string) : option string :=
  match line with
  | EmptyString => None
  | String c rest =>
      match upto_last_ms rest with
      | Some p => Some (String c p)
      | None => if String.prefix "ms" line then Some "ms" else None
      end
  end.

(** A match of the pattern that starts at the head of [s]: the text
    [time=], digits, an optional point and more digits (the group), then
    the rest of the line up to its last [ms]. Returns the whole match and
    the group. *)
Definition match_here (s : string) : option (string * string) :=
  if String.prefix "time=" s then
    let '(int_part, after_int) := span_digits (substring 5 (String.length s - 5) s) in
    match int_part with
    | EmptyString => None
    | _ =>
        let '(dot, after_dot) :=
          match after_int with
          | String "." rest => (".", rest)
          | _ => ("", after_int)
          end in
        let '(frac_part, after_frac) := span_digits after_dot in
        let group := int_part ++ dot ++ frac_part in
        match upto_last_ms (line_of after_frac) with
        | Some tail => Some ("time=" ++ group ++ tail, group)
        | None => None
        end
    end
  else None.

(** The leftmost match. *)
Fixpoint find (s : string) : list string :=
  match match_here s with
  | Some (whole, group) => [whole; group]
  | None =>
      match s with
      | EmptyString => []
      | String _ rest => find rest
      end
  end.

Definition FindStringSubmatch (pattern s : string) : list string :=
  if (pattern =? "time=(\d+\.?\d*).*ms")%string then find s else [].

Fixpoint digits_value (s : string) (acc : Z) : Z :=
  match s with
  | EmptyString => acc
  | String c rest => digits_value rest (10 * acc + (Z.of_nat (nat_of_ascii c) - 48))
  end.

Definition ParseFloat (s : string) : option float :=
  let '(int_part, after_int) := span_digits s in
  let '(frac_part, after_frac) :=
    match after_int with
    | String "." rest => span_digits rest
    | _ => ("", after_int)
    end in
  match int_part, after_frac with
  | String _ _, EmptyString =>
      if (String.length int_part + String.length frac_part <=? 15)%nat
      then Some (float64_of_int (digits_value (int_part ++ frac_part) 0)
                 / float64_of_int (10 ^ Z.of_nat (String.length frac_part)))%float
      else None
  | _, _ => None
  end.

End LinuxHost.

Definition sample_runtime : GoRuntime :=
  {| GOOS := "linux";
     FindStringSubmatch := LinuxHost.FindStringSubmatch;
     ParseFloat := LinuxHost.ParseFloat;
     Duration_String := fun _ => "1s" |}.

Definition late_evening : Time.t := Time.mk 2024 1 1 23 59 59.

Definition midnight : Time.t := Time.mk 2024 1 2 0 0 0.

Definition sample_monitor : PingMonitor :=
  NewPingMonitor {| DiscordWebhookURL := "https://discord.com/api/webhooks/1/abc" |}
                 "192.168.1.1" "192.168.1.100".

Definition success_at (t : Time.t) (ms : float) : PingResult :=
  {| Timestamp := t; ResponseTime := ms; Success := true |}.

(** A day on which every probe failed. *)
Definition failures_only : PingMonitor :=
  set_unreachableTimes [late_evening] sample_monitor.

(** The example of the specification: 10, 20 and 30 ms and one failure. *)
Definition three_and_one : PingMonitor :=
  set_unreachableTimes [late_evening]
    (set_pingResults [success_at late_evening 10; success_at late_evening 20;
                      success_at late_evening 30] sample_monitor).

(** Six probes answered in 0.350 ms each. *)
Definition six_fast : PingMonitor :=
  set_pingResults (repeat (success_at late_evening 0.35) 6) sample_monitor.

Definition run_lost : CmdRun :=
  {| cmd_output := ""; cmd_err := Some "exit status 1"; cmd_elapsed := 3004000000 |}.

(** An answer whose line carries no [time=] reading. *)
Definition run_answered : CmdRun :=
  {| cmd_output := "64 bytes from 8.8.8.8: icmp_seq=1 ttl=117";
     cmd_err := None; cmd_elapsed := 12300000 |}.

(** An answer after 0.350 ms, as [ping] of iputils prints it. *)
Definition run_fast : CmdRun :=
  {| cmd_output := "PING 8.8.8.8 (8.8.8.8) 56(84) bytes of data." ++ nl ++
                   "64 bytes from 8.8.8.8: icmp_seq=1 ttl=117 time=0.350 ms" ++ nl ++
                   nl ++ "--- 8.8.8.8 ping statistics ---" ++ nl ++
                   "1 packets transmitted, 1 received, 0% packet loss, time 0ms" ++ nl ++
                   "rtt min/avg/max/mdev = 0.350/0.350/0.350/0.000 ms" ++ nl;
     cmd_err := None; cmd_elapsed := 4100000 |}.

(** A tick at [second] seconds past 12:00 on 1 January whose probe is
    answered after 0.350 ms. *)
Definition fast_tick (second : Z) : Tick :=
  {| tick_now := Time.mk 2024 1 1 12 0 second; tick_target := run_fast;
     tick_gateway := run_answered;
     tick_env := {| now_RFC3339 := ""; webhook := PostResponse 204 "" |};
     tick_beats_stop := false |}.

Definition rejected : ReportEnv :=
  {| now_RFC3339 := "2024-01-02T00:00:00+09:00";
     webhook := PostResponse 500 "internal error" |}.

Definition accepted : ReportEnv :=
  {| now_RFC3339 := "2024-01-02T00:00:00+09:00";
     webhook := PostResponse 204 "" |}.

Definition first_tick_of_day : Tick :=
  {| tick_now := midnight; tick_target := run_lost;
     tick_gateway := run_answered; tick_env := accepted;
     tick_beats_stop := false |}.

Definition second_tick_of_day : Tick :=
  {| tick_now := Time.mk 2024 1 2 0 0 1; tick_target := run_answered;
     tick_gateway := run_answered; tick_env := accepted;
     tick_beats_stop := false |}.

Definition third_tick_of_day : Tick :=
  {| tick_now := Time.mk 2024 1 2 0 0 2; tick_target := run_answered;
     tick_gateway := run_answered; tick_env := accepted;
     tick_beats_stop := false |}.

(** *** Sample values for startup *)

(** The pattern of [getDefaultGateway], matched as the regular expression
    engine does: the leftmost [default via ] followed by four runs of
    digits separated by points. *)
Module IpRoute.

Definition dotted_quad (s : string) : option string :=
  let '(a, after_a) := LinuxHost.span_digits s in
  match a, after_a with
  | String _ _, String "." rest_a =>
      let '(b, after_b) := LinuxHost.span_digits rest_a in
      match b, after_b with
      | String _ _, String "." rest_b =>
          let '(c, after_c) := LinuxHost.span_digits rest_b in
          match c, after_c with
          | String _ _, String "." rest_c =>
              let '(d, _) := LinuxHost.span_digits rest_c in
              match d with
              | String _ _ => Some (a ++ "." ++ b ++ "." ++ c ++ "." ++ d)
              | EmptyString => None
              end
          | _, _ => None
          end
      | _, _ => None
      end
  | _, _ => None
  end.

Definition match_here (s : string) : option (string * string) :=
  if String.prefix "default via " s then
    match dotted_quad (substring 12 (String.length s - 12) s) with
    | Some group => Some ("default via " ++ group, group)
    | None => None
    end
  else None.

Fixpoint find (s : string) : list string :=
  match match_here s with
  | Some (whole, group) => [whole; group]
  | None =>
      match s with
      | EmptyString => []
      | String _ rest => find rest
      end
  end.

End IpRoute.

(** The Linux host of [sample_runtime], which knows the route pattern too. *)
Definition route_runtime : GoRuntime :=
  {| GOOS := "linux";
     FindStringSubmatch := fun pattern s =>
       if (pattern =? "default via (\d+\.\d+\.\d+\.\d+)")%string
       then IpRoute.find s
       else LinuxHost.FindStringSubmatch pattern s;
     ParseFloat := LinuxHost.ParseFloat;
     Duration_String := fun _ => "1s" |}.

Definition quote : string := String (ascii_of_nat 34) "".

(** A configuration file with a webhook, and the one from the README. *)
Definition config_json (url : string) : string :=
  "{" ++ quote ++ "discord_webhook_url" ++ quote ++ ": " ++ quote ++ url ++ quote ++ "}".

Definition webhook_url : string := "https://discord.com/api/webhooks/1/abc".

Definition placeholder_url : string :=
  "https://discord.com/api/webhooks/YOUR_WEBHOOK_ID/YOUR_WEBHOOK_TOKEN".

(** A decoder that knows these two files. *)
Definition sample_unmarshal (data : string) : Config + error :=
  if (data =? config_json webhook_url)%string
  then inl {| DiscordWebhookURL := webhook_url |}
  else if (data =? config_json placeholder_url)%string
       then inl {| DiscordWebhookURL := placeholder_url |}
       else inr "unexpected end of JSON input".

Definition ip_route_output : string :=
  "default via 192.168.1.1 dev eth0 proto dhcp metric 100 " ++ nl.

(** A routing table without a default route. *)
Definition route_n_output : string :=
  "Kernel IP routing table" ++ nl ++
  "Destination     Gateway         Genmask         Flags Metric Ref    Use Iface" ++ nl ++
  "192.168.0.0     0.0.0.0         255.255.255.0   U     100    0        0 eth0" ++ nl.

(** A routing table with one. *)
Definition route_n_default : string :=
  "Kernel IP routing table" ++ nl ++
  "Destination     Gateway         Genmask         Flags Metric Ref    Use Iface" ++ nl ++
  "0.0.0.0         192.168.0.1     0.0.0.0         UG    100    0        0 eth0" ++ nl ++
  "192.168.0.0     0.0.0.0         255.255.255.0   U     100    0        0 eth0" ++ nl.

Definition cr : string := String (ascii_of_nat 13) "".

(** The active routes of [route print 0.0.0.0] on Windows. *)
Definition route_print_output : string :=
  "Active Routes:" ++ cr ++ nl ++
  "Network Destination        Netmask          Gateway       Interface  Metric" ++ cr ++ nl ++
  "          0.0.0.0          0.0.0.0      192.168.1.1    192.168.1.100     25" ++ cr ++ nl.

Definition startup_with (url : string) : Startup :=
  {| config_read := inl (config_json url);
     unmarshal := sample_unmarshal;
     route_primary := Some ip_route_output;
     route_secondary := None;
     dialled := Some "192.168.1.100" |}.

Definition startup_without_file : Startup :=
  {| config_read := inr "open config.json: no such file or directory";
     unmarshal := sample_unmarshal;
     route_primary := Some ip_route_output;
     route_secondary := None;
     dialled := Some "192.168.1.100" |}.

(** A tick that is waiting when the channel is closed, and taken. *)
Definition late_tick : Tick :=
  {| tick_now := Time.mk 2024 1 1 12 0 1; tick_target := run_fast;
     tick_gateway := run_answered; tick_env := accepted;
     tick_beats_stop := true |}.

(** Three ticks at noon on 1 January, the second of them lost. *)
Definition noon_ticks : list Tick :=
  [ fast_tick 1;
    {| tick_now := Time.mk 2024 1 1 12 0 2; tick_target := run_lost;
       tick_gateway := run_answered; tick_env := accepted;
       tick_beats_stop := false |};
    fast_tick 3 ].

(** A monitor with twelve failures. *)
Definition twelve_failures : PingMonitor :=
  set_unreachableTimes
    (map (fun s => Time.mk 2024 1 1 12 0 s) [0; 1; 2; 3; 4; 5; 6; 7; 8; 9; 10; 11])
    sample_monitor.

(** * Properties *)

Section Properties.

Context {rt : GoRuntime}.

(** ** The method monad *)

Lemma reads_ret {A : Type} (a : A) : reads (ret a).
Proof. intros pm. exists a, []. reflexivity. Qed.

Lemma reads_get : reads get.
Proof. intros pm. exists pm, []. reflexivity. Qed.

Lemma reads_emit (e : event) : reads (emit e).
Proof. intros pm. exists tt, [e]. reflexivity. Qed.

Lemma reads_bind {A B : Type} (m : M A) (k : A -> M B) :
  reads m -> (forall a, reads (k a)) -> reads (bind m k).
Proof.
  intros Hm Hk pm. unfold bind.
  destruct (Hm pm) as (a & tr1 & ->).
  destruct (Hk a pm) as (b & tr2 & ->).
  exists b, (tr1 ++ tr2)%list. reflexivity.
Qed.

Lemma reads_run (m : M unit) (pm : PingMonitor) :
  reads m -> m pm = (Ok tt, pm, trace (m pm)).
Proof.
  intros Hm. destruct (Hm pm) as ([] & tr & ->). reflexivity.
Qed.

Lemma bind_run {A B : Type} (m : M A) (k : A -> M B) (pm : PingMonitor)
      (a : A) (pm1 : PingMonitor) (tr1 : list event) :
  m pm = (Ok a, pm1, tr1) ->
  bind m k pm = (outcome (k a pm1), final (k a pm1), (tr1 ++ trace (k a pm1))%list).
Proof.
  intros E. unfold bind. rewrite E.
  destruct (k a pm1) as [[r pm2] tr2]. reflexivity.
Qed.

(** ** Methods that only read the monitor *)

Create HintDb go discriminated.

#[local] Hint Resolve reads_ret reads_get reads_emit : go.

Ltac reads_tac :=
  repeat first
    [ apply reads_ret | apply reads_get | apply reads_emit
    | apply reads_bind; [ | intros ]
    | match goal with
      | |- reads (match ?x with _ => _ end) => destruct x
      | |- reads (if ?b then _ else _) => destruct b
      end
    | solve [ auto with go ] ].

Lemma reads_Printf (s : string) : reads (Printf s).
Proof. apply reads_emit. Qed.

Lemma reads_Println (s : string) : reads (Println s).
Proof. apply reads_emit. Qed.

#[local] Hint Resolve reads_Printf reads_Println : go.

Lemma reads_pingHost (host : string) (run : CmdRun) : reads (pingHost host run).
Proof. unfold pingHost. reads_tac. Qed.

Lemma reads_print_unreachable (ts : list Time.t) (i total : Z) :
  reads (print_unreachable i total ts).
Proof.
  revert i. induction ts as [| t rest IH]; intros i; simpl.
  - apply reads_ret.
  - destruct (10 <=? i); reads_tac.
Qed.

#[local] Hint Resolve reads_pingHost reads_print_unreachable : go.

Lemma reads_printDailyReport (reportDate : string) : reads (printDailyReport reportDate).
Proof.
  unfold printDailyReport. apply reads_bind; [ apply reads_get | intros pm ].
  destruct (print_latency pm) as [[[avg mx] mn] |]; reads_tac.
Qed.

Lemma reads_sendToDiscord (message : DiscordMessage) (answer : PostResult) :
  reads (sendToDiscord message answer).
Proof. unfold sendToDiscord. reads_tac. Qed.

#[local] Hint Resolve reads_printDailyReport reads_sendToDiscord : go.

Lemma reads_sendDailyReport (reportDate : string) (env : ReportEnv) :
  reads (sendDailyReport reportDate env).
Proof. unfold sendDailyReport. reads_tac. Qed.

#[local] Hint Resolve reads_sendDailyReport : go.

(** ** Shutdown *)

(** [Stop] on an open channel: the channel is closed, and the flush runs
    when one of the two slices has an element. *)
Lemma Stop_run (now : Time.t) (env : ReportEnv) (pm : PingMonitor) :
  stopChan pm = chan_open ->
  Stop now env pm =
    let pm' := set_stopChan chan_closed (set_running false pm) in
    (Ok tt, pm',
     if (0 <? len (pingResults pm)) || (0 <? len (unreachableTimes pm))
     then Stdout ("現在の統計を送信中..." ++ nl)
            :: trace (sendDailyReport (Time.Format_date now) env pm')
     else []).
Proof.
  intros Hopen. unfold Stop, close_stopChan.
  cbv beta delta [bind modify get] iota. cbn [stopChan set_running].
  rewrite Hopen. cbn [pingResults unreachableTimes set_stopChan set_running app].
  destruct ((0 <? len (pingResults pm)) || (0 <? len (unreachableTimes pm))).
  - unfold Println. cbv beta delta [bind emit] iota.
    rewrite (reads_run _ _ (reads_sendDailyReport (Time.Format_date now) env)).
    reflexivity.
  - reflexivity.
Qed.

(** [Stop] on a closed channel panics in [close], before the flush. *)
Lemma Stop_closed (now : Time.t) (env : ReportEnv) (pm : PingMonitor) :
  stopChan pm = chan_closed ->
  Stop now env pm = (Panic "close of closed channel", set_running false pm, []).
Proof.
  intros Hclosed. unfold Stop, close_stopChan.
  cbv beta delta [bind modify get panic] iota. cbn [stopChan set_running].
  rewrite Hclosed. reflexivity.
Qed.

(** ** What the report methods emit *)

Lemma length_append (s1 s2 : string) :
  String.length (s1 ++ s2) = (String.length s1 + String.length s2)%nat.
Proof. induction s1 as [| c s1 IH]; cbn; congruence. Qed.

Lemma append_assoc (s1 s2 s3 : string) : (s1 ++ s2) ++ s3 = s1 ++ s2 ++ s3.
Proof. induction s1 as [| c s1 IH]; cbn; congruence. Qed.

Lemma reports_Stdout (lines : list string) : reports (map Stdout lines) = [].
Proof. induction lines; simpl; auto. Qed.

Lemma posts_Stdout (lines : list string) : posts (map Stdout lines) = [].
Proof. induction lines; simpl; auto. Qed.

Lemma console_Stdout (lines : list string) : console (map Stdout lines) = lines.
Proof. induction lines; simpl; congruence. Qed.

Lemma print_unreachable_trace (pm : PingMonitor) (total : Z) (ts : list Time.t) (i : Z) :
  0 <= i <= 10 ->
  trace (print_unreachable i total ts pm) =
    map Stdout
      (map (fun l => "  " ++ l ++ nl)
           (List.app (map Time.Format_clock (firstn (Z.to_nat (10 - i)) ts))
                     (if 10 - i <? len ts
                      then ["... 他" ++ Fmt.d (total - 10) ++ "件"] else []))).
Proof.
  revert i. induction ts as [| t rest IH]; intros i Hi.
  - rewrite firstn_nil.
    replace (10 - i <? len (@nil Time.t)) with false; [ reflexivity | ].
    symmetry. apply Z.ltb_ge. unfold len. cbn [List.length]. lia.
  - cbn [print_unreachable]. destruct (10 <=? i) eqn:E.
    + apply Z.leb_le in E. replace i with 10 by lia.
      change (Z.to_nat (10 - 10)) with 0%nat.
      replace (10 - 10 <? len (t :: rest)) with true.
      * cbn [firstn map app]. unfold Printf, emit, trace. cbn [snd].
        now rewrite !append_assoc.
      * symmetry. apply Z.ltb_lt. unfold len. cbn [List.length]. lia.
    + apply Z.leb_gt in E.
      unfold Printf at 1. cbv beta delta [bind emit] iota.
      rewrite (reads_run _ _ (reads_print_unreachable rest (i + 1) total)).
      unfold trace at 1. cbn [snd app].
      rewrite IH by lia.
      replace (Z.to_nat (10 - i)) with (S (Z.to_nat (10 - (i + 1)))) by lia.
      replace (10 - i <? len (t :: rest)) with (10 - (i + 1) <? len rest).
      * reflexivity.
      * unfold len. cbn [List.length].
        destruct (10 - (i + 1) <? Z.of_nat (List.length rest)) eqn:F;
          symmetry; [ apply Z.ltb_lt; apply Z.ltb_lt in F
                    | apply Z.ltb_ge; apply Z.ltb_ge in F ]; lia.
Qed.

Lemma printDailyReport_trace (reportDate : string) (pm : PingMonitor) :
  trace (printDailyReport reportDate pm) = map Stdout (console_report reportDate pm).
Proof.
  unfold printDailyReport, console_report, console_latency, console_failures,
    console_reachability, failure_lines.
  pose proof (print_unreachable_trace pm (len (unreachableTimes pm))
                (unreachableTimes pm) 0 ltac:(lia)) as Hlist.
  pose proof (reads_run _ pm (reads_print_unreachable (unreachableTimes pm) 0
                (len (unreachableTimes pm)))) as Hrun.
  rewrite Hlist in Hrun. clear Hlist.
  change (Z.to_nat (10 - 0)) with 10%nat in Hrun.
  change (10 - 0) with 10 in Hrun.
  unfold Printf. cbv beta delta [bind emit get ret] iota.
  destruct (print_latency pm) as [[[avg mx] mn] |];
    destruct (0 <? len (unreachableTimes pm));
    try rewrite Hrun; unfold trace; cbn [snd app map];
    rewrite ?map_app; reflexivity.
Qed.

Lemma printDailyReport_run (reportDate : string) (pm : PingMonitor) :
  printDailyReport reportDate pm = (Ok tt, pm, map Stdout (console_report reportDate pm)).
Proof.
  rewrite (reads_run _ _ (reads_printDailyReport reportDate)).
  rewrite printDailyReport_trace. reflexivity.
Qed.

(** The whole of [sendDailyReport], case by case. *)
Lemma sendDailyReport_trace (reportDate : string) (env : ReportEnv) (pm : PingMonitor) :
  trace (sendDailyReport reportDate env pm) =
    Enter_sendDailyReport reportDate ::
    if (DiscordWebhookURL (config pm) =? "")%string
       || Strings.Contains (DiscordWebhookURL (config pm)) "YOUR_WEBHOOK" then
      Stdout ("Discord Webhook URLが設定されていないため、レポートをコンソールに出力します：" ++ nl)
        :: map Stdout (console_report reportDate pm)
    else
      HttpPost (DiscordWebhookURL (config pm))
               {| Embeds := [daily_embed pm reportDate (now_RFC3339 env)] |} ::
      match webhook env with
      | PostError err =>
          Stdout ("❌ Discord送信エラー: " ++ err ++ nl)
            :: map Stdout (console_report reportDate pm)
      | PostResponse status body =>
          if status =? 204
          then [Stdout ("✅ " ++ reportDate ++ "の日次レポートをDiscordに送信しました" ++ nl)]
          else Stdout ("❌ Discord送信エラー: " ++
                       ("Discord API error: " ++ Fmt.d status ++ " - " ++ body) ++ nl)
                 :: map Stdout (console_report reportDate pm)
      end.
Proof.
  unfold sendDailyReport, sendToDiscord, Println, Printf.
  cbv beta delta [bind emit get ret] iota.
  destruct ((DiscordWebhookURL (config pm) =? "")%string
            || Strings.Contains (DiscordWebhookURL (config pm)) "YOUR_WEBHOOK").
  - rewrite printDailyReport_run. reflexivity.
  - destruct (webhook env) as [err | status body].
    + rewrite printDailyReport_run. reflexivity.
    + destruct (status =? 204); cbn [negb].
      * reflexivity.
      * rewrite printDailyReport_run. reflexivity.
Qed.

Lemma reports_sendDailyReport (reportDate : string) (env : ReportEnv) (pm : PingMonitor) :
  reports (trace (sendDailyReport reportDate env pm)) = [reportDate].
Proof.
  rewrite sendDailyReport_trace.
  destruct (_ || _); [ | destruct (webhook env) as [? | status ?];
                                  [ | destruct (status =? 204) ] ];
    cbn [reports flat_map app]; fold (reports (map Stdout (console_report reportDate pm)));
    rewrite ?reports_Stdout; reflexivity.
Qed.

Lemma len_nonneg {A : Type} (l : list A) : 0 <= len l.
Proof. unfold len. lia. Qed.

Lemma send_successRate_spec (pm : PingMonitor) :
  send_successRate pm = spec_successRate (len (pingResults pm)) (len (unreachableTimes pm)).
Proof.
  unfold send_successRate, spec_successRate. cbv zeta.
  pose proof (len_nonneg (pingResults pm)). pose proof (len_nonneg (unreachableTimes pm)).
  destruct (_ + _ =? 0) eqn:E.
  - apply Z.eqb_eq in E. replace (0 <? _) with false; [ reflexivity | ].
    symmetry. apply Z.ltb_ge. lia.
  - apply Z.eqb_neq in E. replace (0 <? _) with true; [ reflexivity | ].
    symmetry. apply Z.ltb_lt. lia.
Qed.

Lemma print_successRate_spec (pm : PingMonitor) :
  print_successRate pm = spec_successRate (len (pingResults pm)) (len (unreachableTimes pm)).
Proof. exact (send_successRate_spec pm). Qed.



(** C3, as the code behaves: after a first [Stop], a second one panics when
    it closes [stopChan] again; it emits nothing, so the trace holds the one
    flush of the first call, but the call itself fails. *)
Theorem Stop_twice_panics (now1 now2 : Time.t) (env1 env2 : ReportEnv) (pm : PingMonitor) :
  stopChan pm = chan_open ->
  let r := (Stop now1 env1 ;; Stop now2 env2) pm in
  outcome r = Panic "close of closed channel" /\
  trace r = trace (Stop now1 env1 pm).
Proof.
  intros Hopen r. subst r.
  pose proof (Stop_run now1 env1 pm Hopen) as H1. cbv zeta in H1.
  rewrite (bind_run _ _ _ _ _ _ H1).
  rewrite Stop_closed by reflexivity.
  rewrite H1. unfold outcome, trace. cbn [fst snd].
  split; [ reflexivity | apply app_nil_r ].
Qed.

(** ** The tick *)

Lemma pingHost_failure (host : string) (run : CmdRun) (e : error) (pm : PingMonitor) :
  cmd_err run = Some e ->
  pingHost host run pm = (Ok (0%float, Some e), pm, [Exec (ping_argv host)]).
Proof.
  intros E. unfold pingHost. rewrite E. reflexivity.
Qed.

(** A command that ran without error gives a latency and no error: the
    parsed one if there is one, the measured duration otherwise. *)
Lemma pingHost_latency (host : string) (run : CmdRun) (pm : PingMonitor) :
  cmd_err run = None ->
  pingHost host run pm =
    (Ok (match parsed_latency (cmd_output run) with
         | Some ms => ms
         | None => (float64_of_int (cmd_elapsed run) / 1000000)%float
         end, None),
     pm, [Exec (ping_argv host)]).
Proof.
  intros E. unfold pingHost, ping_argv, parsed_latency. rewrite E.
  cbv beta delta [bind emit ret] iota.
  destruct (GOOS =? "windows")%string;
    match goal with
    | |- context [FindStringSubmatch ?p ?o] =>
        destruct (FindStringSubmatch p o) as [| whole [| group more_groups]]
    end;
    try match goal with
        | |- context [ParseFloat ?g] => destruct (ParseFloat g)
        end;
    reflexivity.
Qed.

Lemma pingHost_success (host : string) (run : CmdRun) (pm : PingMonitor) :
  cmd_err run = None ->
  exists ms, pingHost host run pm = (Ok (ms, None), pm, [Exec (ping_argv host)]).
Proof.
  intros E. rewrite (pingHost_latency host run pm E). eexists. reflexivity.
Qed.

(** The day-change check, case by case. *)
Lemma rollover_run (lastDay : string) (tk : Tick) (pm : PingMonitor) :
  rollover lastDay tk pm =
    if negb (Time.Format_date (tick_now tk) =? lastDay)%string
       && (0 <? len (pingResults pm))
    then (Ok (Time.Format_date (tick_now tk)),
          set_unreachableTimes [] (set_pingResults [] pm),
          trace (sendDailyReport lastDay (tick_env tk) pm))
    else (Ok lastDay, pm, []).
Proof.
  unfold rollover. cbv beta delta [bind get] iota.
  destruct (negb (Time.Format_date (tick_now tk) =? lastDay)%string
            && (0 <? len (pingResults pm))).
  - rewrite (reads_run _ _ (reads_sendDailyReport lastDay (tick_env tk))).
    unfold resetDailyData. cbv beta delta [bind modify ret] iota.
    cbn [app]. rewrite app_nil_r. reflexivity.
  - reflexivity.
Qed.

(** C1, as the code behaves: the day-change check looks at the successes
    only. A monitor without a success passes any tick untouched: no report
    is sent, the failure timestamps stay in the accumulator, and [lastDay]
    keeps the old date, whatever the date of the tick. *)
Theorem rollover_needs_a_success (lastDay : string) (tk : Tick) (pm : PingMonitor) :
  pingResults pm = [] ->
  rollover lastDay tk pm = (Ok lastDay, pm, []).
Proof.
  intros Hnone. rewrite rollover_run, Hnone.
  rewrite andb_false_r. reflexivity.
Qed.

(** With a success in the accumulator the day change does what the
    specification asks: one report, for the old date, and an empty
    accumulator afterwards. *)
Lemma rollover_reports_once (lastDay : string) (tk : Tick) (pm : PingMonitor) :
  Time.Format_date (tick_now tk) <> lastDay ->
  pingResults pm <> [] ->
  let r := rollover lastDay tk pm in
  outcome r = Ok (Time.Format_date (tick_now tk)) /\
  reports (trace r) = [lastDay] /\
  accumulator (final r) = ([], []).
Proof.
  intros Hdate Hsome r. subst r. rewrite rollover_run.
  apply String.eqb_neq in Hdate. rewrite Hdate.
  destruct (pingResults pm) as [| p ps] eqn:E; [ congruence | ].
  replace (0 <? len (p :: ps)) with true
    by (symmetry; apply Z.ltb_lt; unfold len; cbn [List.length]; lia).
  cbn [negb andb]. unfold outcome, final, trace. cbn [fst snd].
  repeat split. apply reports_sendDailyReport.
Qed.

(** A failed probe: one timestamp more, whatever the gateway answers. *)
Lemma probe_failure_run (tk : Tick) (e : error) (pm : PingMonitor) :
  cmd_err (tick_target tk) = Some e ->
  exists tr,
    probe tk pm =
      (Ok tt, set_unreachableTimes (unreachableTimes pm ++ [tick_now tk])%list pm, tr).
Proof.
  intros E. unfold probe. cbv beta delta [bind get] iota.
  rewrite (pingHost_failure _ _ e pm E).
  unfold Printf. cbv beta delta [modify emit ret] iota.
  destruct (negb (defaultGateway pm =? "")%string).
  - destruct (cmd_err (tick_gateway tk)) as [ge |] eqn:G.
    + rewrite (pingHost_failure _ _ ge _ G). eexists. reflexivity.
    + destruct (pingHost_success (defaultGateway pm) (tick_gateway tk)
                  (set_unreachableTimes (unreachableTimes pm ++ [tick_now tk])%list pm) G)
        as (ms & ->).
      eexists. reflexivity.
  - eexists. reflexivity.
Qed.

(** A successful probe: one latency sample more. *)
Lemma probe_success_run (tk : Tick) (pm : PingMonitor) :
  cmd_err (tick_target tk) = None ->
  exists ms tr,
    probe tk pm =
      (Ok tt,
       set_pingResults (pingResults pm ++ [success_at (tick_now tk) ms])%list pm, tr).
Proof.
  intros E. unfold probe. cbv beta delta [bind get] iota.
  destruct (pingHost_success (targetIP pm) (tick_target tk) pm E) as (ms & ->).
  exists ms. eexists. reflexivity.
Qed.

Lemma rollover_ok (lastDay : string) (tk : Tick) (pm : PingMonitor) :
  exists d, outcome (rollover lastDay tk pm) = Ok d.
Proof.
  rewrite rollover_run. destruct (_ && _); eexists; reflexivity.
Qed.

Lemma tick_final (lastDay : string) (tk : Tick) (pm : PingMonitor) :
  final (tick lastDay tk pm) = final (probe tk (final (rollover lastDay tk pm))).
Proof.
  destruct (rollover_ok lastDay tk pm) as (d & Hd).
  unfold tick, bind, final, outcome in *.
  destruct (rollover lastDay tk pm) as [[r pm1] tr1]. cbn [fst snd] in *. subst r.
  destruct (probe tk pm1) as [[[u | msg] pm2] tr2]; reflexivity.
Qed.

Lemma rollover_with_gateway (lastDay : string) (gw : CmdRun) (tk : Tick) (pm : PingMonitor) :
  rollover lastDay (with_gateway gw tk) pm = rollover lastDay tk pm.
Proof. reflexivity. Qed.

(** C9: on a tick whose probe of the target fails, the failure timestamps
    grow by exactly the tick's time and the successes stay as the day-change
    check left them; the accumulator after the tick is the same whatever
    the probe of the gateway returned. *)
Theorem failed_probe_records_once (lastDay : string) (tk : Tick) (e : error)
        (pm : PingMonitor) :
  cmd_err (tick_target tk) = Some e ->
  let before := final (rollover lastDay tk pm) in
  let after := final (tick lastDay tk pm) in
  unreachableTimes after = (unreachableTimes before ++ [tick_now tk])%list /\
  pingResults after = pingResults before /\
  forall gw, accumulator (final (tick lastDay (with_gateway gw tk) pm)) = accumulator after.
Proof.
  intros E before after. subst before after.
  rewrite tick_final.
  destruct (probe_failure_run tk e (final (rollover lastDay tk pm)) E) as (tr & ->).
  unfold final at 1 3. cbn [fst snd unreachableTimes pingResults set_unreachableTimes].
  repeat split.
  intros gw. rewrite tick_final, rollover_with_gateway.
  destruct (probe_failure_run (with_gateway gw tk) e
              (final (rollover lastDay tk pm)) E) as (tr' & ->).
  reflexivity.
Qed.

(** ** Binary64: rounding keeps the sign *)

Lemma shr_1_nonneg (mrs : shr_record) : 0 <= shr_m mrs -> 0 <= shr_m (shr_1 mrs).
Proof.
  destruct mrs as [m r s]. cbn [shr_m].
  destruct m as [| [p | p |] | p]; cbn; lia.
Qed.

Lemma iter_pos_invariant {A : Type} (P : A -> Prop) (g : A -> A) :
  (forall x, P x -> P (g x)) ->
  forall (n : positive) (x : A), P x -> P (iter_pos g n x).
Proof.
  intros Hg. induction n as [n IH | n IH |]; intros x Hx; cbn [iter_pos]; auto.
Qed.

Lemma shr_fexp_nonneg (m e : Z) (l : location) :
  0 <= m -> 0 <= shr_m (fst (shr_fexp prec emax m e l)).
Proof.
  intros Hm. unfold shr_fexp, shr.
  assert (H0 : 0 <= shr_m (shr_record_of_loc m l))
    by (destruct l as [| []]; exact Hm).
  destruct (fexp prec emax (Zdigits2 m + e) - e) as [| p | p]; cbn [fst]; auto.
  apply (iter_pos_invariant (fun mrs => 0 <= shr_m mrs)); auto using shr_1_nonneg.
Qed.

Lemma round_nearest_even_nonneg (m : Z) (l : location) :
  0 <= m -> 0 <= round_nearest_even m l.
Proof.
  intros Hm. destruct l as [| []]; cbn [round_nearest_even]; try lia.
  destruct (Z.even m); lia.
Qed.

Lemma binary_round_aux_sign_clear (m e : Z) (l : location) :
  0 <= m -> sign_clear (binary_round_aux prec emax false m e l).
Proof.
  intros Hm. unfold binary_round_aux.
  pose proof (shr_fexp_nonneg m e l Hm) as H1.
  destruct (shr_fexp prec emax m e l) as [mrs1 e1]. cbn [fst] in H1.
  pose proof (shr_fexp_nonneg _ e1 loc_Exact
                (round_nearest_even_nonneg _ (loc_of_shr_record mrs1) H1)) as H2.
  destruct (shr_fexp prec emax _ e1 loc_Exact) as [mrs2 e2]. cbn [fst] in H2.
  destruct (shr_m mrs2) as [| p | p]; [ exact I | | lia ].
  destruct (e2 <=? emax - prec); exact I.
Qed.

Lemma of_uint63_sign_clear (i : Uint63.int) : sign_clear (Prim2SF (of_uint63 i)).
Proof.
  rewrite of_uint63_spec.
  pose proof (Uint63.to_Z_bounded i) as [Hi _].
  destruct (Uint63.to_Z i) as [| p | p]; [ exact I | | lia ].
  unfold binary_normalize, binary_round.
  destruct (shl_align p 0 _) as [mz ez].
  apply binary_round_aux_sign_clear. lia.
Qed.

Lemma SFdiv_sign_clear (x : spec_float) (m : positive) (e : Z) :
  sign_clear x -> sign_clear (SFdiv prec emax x (S754_finite false m e)).
Proof.
  destruct x as [[] | [] | | [] mx ex]; cbn [sign_clear]; intros H;
    try contradiction; try exact I.
  unfold SFdiv, SFdiv_core_binary.
  set (num := match _ - _ with Z0 => Z.pos mx | Z.pos _ => Z.shiftl _ _ | Z.neg _ => 0 end).
  assert (Hnum : 0 <= num).
  { subst num. destruct (_ - _); [ lia | apply Z.shiftl_nonneg; lia | lia ]. }
  pose proof (Z_div_mod num (Z.pos m) ltac:(lia)) as Hdiv.
  destruct (Z.div_eucl num (Z.pos m)) as [q r].
  apply binary_round_aux_sign_clear. nia.
Qed.

Lemma sign_clear_leb_zero (x : float) :
  sign_clear (Prim2SF x) -> (0 <=? x)%float = true.
Proof.
  rewrite leb_spec. change (Prim2SF 0) with (S754_zero false).
  destruct (Prim2SF x) as [[] | [] | | [] mx ex]; cbn; intros H;
    try contradiction; reflexivity.
Qed.

(** [float64(n) / 1000000] is never below zero for a non-negative [n]. *)
Lemma milliseconds_nonneg (n : Z) :
  0 <= n -> (0 <=? float64_of_int n / 1000000)%float = true.
Proof.
  intros Hn. apply sign_clear_leb_zero. rewrite div_spec.
  unfold float64_of_int. replace (n <? 0) with false by (symmetry; apply Z.ltb_ge; lia).
  set (d := Prim2SF 1000000). vm_compute in d. subst d.
  apply SFdiv_sign_clear, of_uint63_sign_clear.
Qed.

(** C10: when the [ping] command succeeds and its output carries no
    latency that can be parsed, [pingHost] returns no error and reports the
    measured duration of the command, in milliseconds; that latency is not
    negative. *)
Theorem pingHost_unparsed_output (host : string) (run : CmdRun) (pm : PingMonitor) :
  cmd_err run = None ->
  parsed_latency (cmd_output run) = None ->
  0 <= cmd_elapsed run ->
  let ms := (float64_of_int (cmd_elapsed run) / 1000000)%float in
  pingHost host run pm = (Ok (ms, None), pm, [Exec (ping_argv host)]) /\
  (0 <=? ms)%float = true.
Proof.
  intros Herr Hparse Hpos ms. subst ms. split; [ | apply milliseconds_nonneg, Hpos ].
  unfold pingHost, ping_argv, parsed_latency in *. rewrite Herr.
  cbv beta delta [bind emit ret] iota.
  destruct (GOOS =? "windows")%string;
    match goal with
    | |- context [FindStringSubmatch ?p ?o] =>
        destruct (FindStringSubmatch p o) as [| whole [| group more_groups]]
    end;
    try rewrite Hparse; reflexivity.
Qed.

(** ** The failure-periods field *)

Lemma length_substring_le (s : string) (n : nat) :
  (String.length (substring 0 n s) <= n)%nat.
Proof.
  revert n. induction s as [| c s IH]; intros [| n]; cbn; try lia.
  specialize (IH n). lia.
Qed.

Lemma collect_periods_firstn (ts : list Time.t) (i : Z) (periods : list string) :
  0 <= i <= 10 ->
  collect_periods 10 i ts periods =
    (periods ++ map Time.Format_clock (firstn (Z.to_nat (10 - i)) ts))%list.
Proof.
  revert i periods. induction ts as [| t rest IH]; intros i periods Hi.
  - rewrite firstn_nil. cbn [collect_periods map]. now rewrite app_nil_r.
  - cbn [collect_periods]. destruct (10 <=? i) eqn:E.
    + apply Z.leb_le in E. replace i with 10 by lia.
      change (Z.to_nat (10 - 10)) with 0%nat. cbn [firstn map]. now rewrite app_nil_r.
    + apply Z.leb_gt in E. rewrite IH by lia.
      replace (Z.to_nat (10 - i)) with (S (Z.to_nat (10 - (i + 1)))) by lia.
      cbn [firstn map]. rewrite <- app_assoc. reflexivity.
Qed.

Lemma Join_snoc (elems : list string) (last sep : string) :
  elems <> [] ->
  Strings.Join (elems ++ [last])%list sep = Strings.Join elems sep ++ sep ++ last.
Proof.
  unfold Strings.Join. induction elems as [| x [| y rest] IH]; intros Hne.
  - congruence.
  - reflexivity.
  - change (concat sep ((x :: y :: rest) ++ [last])%list)
      with (x ++ sep ++ concat sep ((y :: rest) ++ [last])%list).
    rewrite IH by discriminate.
    change (concat sep (x :: y :: rest)) with (x ++ sep ++ concat sep (y :: rest)).
    now rewrite !append_assoc.
Qed.

(** The body of [formatUnreachablePeriods] before the size check is the
    failure block joined by newlines. *)
Lemma formatUnreachablePeriods_full (pm : PingMonitor) :
  formatUnreachablePeriods pm =
    let ts := unreachableTimes pm in
    let full := Strings.Join (failure_lines ts) nl in
    if len ts =? 0 then "なし"
    else if (1024 <? String.length full)%nat
         then Strings.slice_to full 1020 ++ "..." else full.
Proof.
  unfold formatUnreachablePeriods, failure_lines. cbv zeta.
  destruct (len (unreachableTimes pm) =? 0) eqn:E0; [ reflexivity | ].
  rewrite (collect_periods_firstn _ 0 []) by lia.
  change (Z.to_nat (10 - 0)) with 10%nat. cbn [app].
  destruct (10 <? len (unreachableTimes pm)) eqn:E10.
  - rewrite Join_snoc; [ reflexivity | ].
    destruct (unreachableTimes pm); [ discriminate E0 | discriminate ].
  - rewrite app_nil_r. reflexivity.
Qed.

(** The entries beyond the tenth: none up to ten entries, all but ten
    beyond. *)
Lemma skipn_ten_count {A : Type} (ts : list A) :
  (skipn 10 ts = [] /\ len ts <= 10) \/
  (skipn 10 ts <> [] /\ 10 < len ts /\ len (skipn 10 ts) = len ts - 10).
Proof.
  unfold len. pose proof (length_skipn 10 ts) as Hlen.
  destruct (skipn 10 ts) as [| t rest] eqn:E.
  - left. cbn [List.length] in Hlen. split; [ reflexivity | lia ].
  - right. cbn [List.length] in *. split; [ discriminate | lia ].
Qed.

(** The failure block, with the entries left out counted on the list. *)
Lemma failure_lines_omitted (ts : list Time.t) :
  failure_lines ts =
    List.app (map Time.Format_clock (firstn 10 ts))
             match skipn 10 ts with
             | [] => []
             | _ :: _ => ["... 他" ++ Fmt.d (len (skipn 10 ts)) ++ "件"]
             end.
Proof.
  unfold failure_lines. f_equal.
  destruct (skipn_ten_count ts) as [[Hnone Hle] | (Hsome & Hlt & Hcount)].
  - rewrite Hnone. apply Z.ltb_ge in Hle. now rewrite Hle.
  - rewrite Hcount. apply Z.ltb_lt in Hlt. rewrite Hlt.
    destruct (skipn 10 ts); [ congruence | reflexivity ].
Qed.

(** C7: the failure-periods field shows the first ten timestamps at most,
    one per line; the entries beyond the tenth are left out, and a last
    line that states their number is added exactly when there are such
    entries, that is when the list has more than ten. The field holds at
    most 1024 bytes, and so at most 1024 characters: a longer text is cut
    to 1020 bytes and ends in an ellipsis. *)
Theorem formatUnreachablePeriods_capped (pm : PingMonitor) :
  let ts := unreachableTimes pm in
  let shown := firstn 10 ts in
  let omitted := skipn 10 ts in
  let suffix := match omitted with
                | [] => []
                | _ :: _ => ["... 他" ++ Fmt.d (len omitted) ++ "件"]
                end in
  let full := Strings.Join (List.app (map Time.Format_clock shown) suffix) nl in
  ts = List.app shown omitted /\
  len shown <= 10 /\
  (omitted <> [] <-> 10 < len ts) /\
  formatUnreachablePeriods pm =
    (if len ts =? 0 then "なし"
     else if (1024 <? String.length full)%nat
          then Strings.slice_to full 1020 ++ "..." else full) /\
  (String.length (formatUnreachablePeriods pm) <= 1024)%nat.
Proof.
  cbv zeta. rewrite <- failure_lines_omitted.
  split; [ symmetry; apply firstn_skipn | ].
  split; [ unfold len; pose proof (firstn_le_length 10 (unreachableTimes pm)); lia | ].
  split; [ | split ].
  - destruct (skipn_ten_count (unreachableTimes pm)) as [[Hnone Hle] | (Hsome & Hlt & _)].
    + rewrite Hnone. split; [ congruence | lia ].
    + split; auto.
  - apply formatUnreachablePeriods_full.
  - rewrite formatUnreachablePeriods_full. cbv zeta.
    destruct (len (unreachableTimes pm) =? 0); [ cbn; lia | ].
    destruct (1024 <? String.length _)%nat eqn:E.
    + rewrite length_append. unfold Strings.slice_to.
      pose proof (length_substring_le
                    (Strings.Join (failure_lines (unreachableTimes pm)) nl) 1020).
      change (String.length "...") with 3%nat. lia.
    + apply Nat.ltb_ge in E. exact E.
Qed.

(** *** The size check never fires on a Go slice *)

Lemma digits_from_length (fuel : nat) (n : Z) (acc : string) :
  (String.length (Fmt.digits_from fuel n acc) <= fuel + String.length acc)%nat.
Proof.
  revert n acc. induction fuel as [| fuel IH]; intros n acc; cbn [Fmt.digits_from].
  - lia.
  - destruct (n <? 10).
    + cbn [String.length]. lia.
    + specialize (IH (n / 10) (String (Fmt.digit (n mod 10)) acc)).
      cbn [String.length] in IH. lia.
Qed.

Lemma d_length_int (n : Z) :
  0 <= n < 2 ^ 63 -> (String.length (Fmt.d n) <= 63)%nat.
Proof.
  intros Hn. unfold Fmt.d, Fmt.unsigned.
  replace (n <? 0) with false by (symmetry; apply Z.ltb_ge; lia).
  pose proof (digits_from_length (S (Z.to_nat (Z.log2 n))) n "") as H.
  cbn [String.length] in H.
  assert (Z.log2 n < 63).
  { destruct (Z.eq_dec n 0) as [-> | Hnz]; [ cbn; lia | ].
    apply Z.log2_lt_pow2; lia. }
  pose proof (Z.log2_nonneg n). lia.
Qed.

Lemma two_length (n : Z) : 0 <= n < 60 -> String.length (Time.two n) = 2%nat.
Proof.
  intros Hn. replace n with (Z.of_nat (Z.to_nat n)) by lia.
  assert (Hk : (Z.to_nat n < 60)%nat) by lia.
  generalize dependent (Z.to_nat n). clear. intros k Hk.
  do 60 (destruct k as [| k]; [ reflexivity | ]). lia.
Qed.

Lemma Format_clock_length (t : Time.t) :
  Time.valid_clock t -> String.length (Time.Format_clock t) = 8%nat.
Proof.
  intros (Hh & Hm & Hs). unfold Time.Format_clock.
  rewrite !length_append, !two_length by lia. reflexivity.
Qed.

Lemma count_line_length (total : Z) :
  10 <= total < 2 ^ 63 ->
  (String.length ("... 他" ++ Fmt.d (total - 10) ++ "件") <= 73)%nat.
Proof.
  intros Ht. rewrite !length_append.
  pose proof (d_length_int (total - 10) ltac:(lia)).
  change (String.length "... 他") with 7%nat.
  change (String.length "件") with 3%nat. lia.
Qed.

Lemma Join_length (elems : list string) (sep : string) (k : nat) :
  Forall (fun s => (String.length s <= k)%nat) elems ->
  (String.length (Strings.Join elems sep)
   <= List.length elems * (k + String.length sep))%nat.
Proof.
  unfold Strings.Join. induction 1 as [| x rest Hx Hrest IH]; [ cbn; lia | ].
  destruct rest as [| y rest].
  - cbn [concat List.length]. lia.
  - change (concat sep (x :: y :: rest)) with (x ++ sep ++ concat sep (y :: rest)).
    rewrite !length_append.
    change (List.length (x :: y :: rest)) with (S (List.length (y :: rest))). lia.
Qed.

Lemma Forall_firstn {A : Type} (P : A -> Prop) (n : nat) (l : list A) :
  Forall P l -> Forall P (firstn n l).
Proof.
  intros H. revert n. induction H as [| x l Hx Hl IH]; intros [| n]; cbn [firstn];
    constructor; auto.
Qed.

Lemma failure_lines_short (ts : list Time.t) :
  len ts < 2 ^ 63 ->
  Forall Time.valid_clock ts ->
  Forall (fun s => (String.length s <= 73)%nat) (failure_lines ts).
Proof.
  intros Hlen Hvalid. unfold failure_lines. apply Forall_app. split.
  - apply Forall_map. apply Forall_firstn.
    apply Forall_impl with (2 := Hvalid). intros t Ht.
    rewrite Format_clock_length by exact Ht. lia.
  - destruct (10 <? len ts) eqn:E; [ | constructor ].
    apply Z.ltb_lt in E. constructor; [ | constructor ].
    apply count_line_length. lia.
Qed.

Lemma failure_lines_count (ts : list Time.t) :
  (List.length (failure_lines ts) <= 11)%nat.
Proof.
  unfold failure_lines. rewrite length_app, length_map.
  pose proof (firstn_le_length 10 ts).
  destruct (10 <? len ts); cbn [List.length]; lia.
Qed.

(** On a slice whose length is a Go [int] and whose times are times of
    day, the field is the failure block joined by newlines, uncut. *)
Lemma formatUnreachablePeriods_uncut (pm : PingMonitor) :
  unreachableTimes pm <> [] ->
  len (unreachableTimes pm) < 2 ^ 63 ->
  Forall Time.valid_clock (unreachableTimes pm) ->
  formatUnreachablePeriods pm = Strings.Join (failure_lines (unreachableTimes pm)) nl.
Proof.
  intros Hne Hlen Hvalid. rewrite formatUnreachablePeriods_full. cbv zeta.
  destruct (unreachableTimes pm) as [| t ts] eqn:E; [ congruence | ].
  change (len (t :: ts) =? 0) with false. cbv iota.
  pose proof (Join_length _ nl 73 (failure_lines_short _ Hlen Hvalid)) as Hj.
  pose proof (failure_lines_count (t :: ts)) as Hc.
  change (String.length nl) with 1%nat in Hj.
  replace (1024 <? _)%nat with false; [ reflexivity | ].
  symmetry. apply Nat.ltb_ge. nia.
Qed.

(** ** Delivery *)

(** C6: with an empty webhook URL, or one that holds the placeholder
    [YOUR_WEBHOOK] of the sample configuration, the report goes to the
    console and no request is made. With any other URL exactly one request
    is made, to that URL. A status other than 204 comes back from
    [sendToDiscord] as an error that carries the status and the body, a
    transport error comes back as it is, and in both cases the error is
    printed and the console report of the same date and the same monitor
    follows, with its date line and its two counts; on 204 nothing is
    printed but the confirmation. *)
Theorem delivery_fallback (reportDate : string) (env : ReportEnv) (pm : PingMonitor) :
  let url := DiscordWebhookURL (config pm) in
  let tr := trace (sendDailyReport reportDate env pm) in
  let message := {| Embeds := [daily_embed pm reportDate (now_RFC3339 env)] |} in
  let attempt := sendToDiscord message (webhook env) pm in
  let fallback := map Stdout (console_report reportDate pm) in
  (In (Stdout ("📊 Ping Monitor 日次レポート - " ++ reportDate ++ nl)) fallback /\
   In (Stdout ("  成功回数: " ++ Fmt.d (len (pingResults pm)) ++ nl)) fallback /\
   In (Stdout ("  失敗回数: " ++ Fmt.d (len (unreachableTimes pm)) ++ nl)) fallback) /\
  if (url =? "")%string || Strings.Contains url "YOUR_WEBHOOK" then
    posts tr = [] /\
    tr = Enter_sendDailyReport reportDate ::
         Stdout ("Discord Webhook URLが設定されていないため、レポートをコンソールに出力します：" ++ nl)
           :: fallback
  else
    posts tr = [(url, message)] /\
    trace attempt = [HttpPost url message] /\
    match webhook env with
    | PostError err =>
        outcome attempt = Ok (Some err) /\
        tr = Enter_sendDailyReport reportDate :: HttpPost url message ::
             Stdout ("❌ Discord送信エラー: " ++ err ++ nl) :: fallback
    | PostResponse status body =>
        if status =? 204 then
          outcome attempt = Ok None /\
          tr = [ Enter_sendDailyReport reportDate; HttpPost url message;
                 Stdout ("✅ " ++ reportDate ++ "の日次レポートをDiscordに送信しました" ++ nl) ]
        else
          outcome attempt
            = Ok (Some ("Discord API error: " ++ Fmt.d status ++ " - " ++ body)) /\
          tr = Enter_sendDailyReport reportDate :: HttpPost url message ::
               Stdout ("❌ Discord送信エラー: " ++
                       ("Discord API error: " ++ Fmt.d status ++ " - " ++ body) ++ nl)
               :: fallback
    end.
Proof.
  cbv zeta. rewrite sendDailyReport_trace. split.
  - repeat split; apply in_map; unfold console_report.
    + right. left. reflexivity.
    + apply in_or_app. right. apply in_or_app. right. apply in_or_app. left.
      unfold console_reachability. right. right. left. reflexivity.
    + apply in_or_app. right. apply in_or_app. right. apply in_or_app. left.
      unfold console_reachability. right. right. right. left. reflexivity.
  - unfold sendToDiscord, outcome, trace. cbv beta delta [bind get emit ret] iota.
    destruct ((DiscordWebhookURL (config pm) =? "")%string
              || Strings.Contains (DiscordWebhookURL (config pm)) "YOUR_WEBHOOK").
    + split; [ | reflexivity ].
      cbn [posts flat_map app]. apply posts_Stdout.
    + destruct (webhook env) as [err | status body].
      * split; [ | split; [ reflexivity | split; reflexivity ] ].
        cbn [posts flat_map app]. f_equal. apply posts_Stdout.
      * destruct (status =? 204); cbn [negb fst snd app].
        -- repeat split.
        -- split; [ | split; [ reflexivity | split; reflexivity ] ].
           cbn [posts flat_map app]. f_equal. apply posts_Stdout.
Qed.

(** ** The success rate *)

(** C2: the success rate of both renderings is the quotient of the
    successes by all samples, shown as a percentage, and zero when there is
    no sample; it is what the reachability line of the console report and
    the reachability field of the embed print, to two decimals. *)
Theorem successRate_reported (reportDate stamp : string) (pm : PingMonitor) :
  let successes := len (pingResults pm) in
  let failures := len (unreachableTimes pm) in
  let rate :=
    if successes + failures =? 0 then 0%float
    else (float64_of_int successes / float64_of_int (successes + failures) * 100)%float in
  send_successRate pm = rate /\
  print_successRate pm = rate /\
  In ("  成功率: " ++ Fmt.f 2 rate ++ "%" ++ nl)
     (console (trace (printDailyReport reportDate pm))) /\
  In {| Name := "📈 到達性統計";
        Value := "**成功率**: " ++ Fmt.f 2 rate ++ "%" ++ nl ++
                 "**成功回数**: " ++ Fmt.d successes ++ nl ++
                 "**失敗回数**: " ++ Fmt.d failures;
        Inline := true |}
     (Fields (daily_embed pm reportDate stamp)).
Proof.
  cbv zeta. fold (spec_successRate (len (pingResults pm)) (len (unreachableTimes pm))).
  rewrite <- send_successRate_spec.
  split; [ reflexivity | split; [ reflexivity | split ] ].
  - rewrite printDailyReport_trace, console_Stdout. unfold console_report.
    apply in_or_app. right. apply in_or_app. right. apply in_or_app. left.
    unfold console_reachability. right. left. reflexivity.
  - unfold daily_embed. destruct (send_latency pm) as [[avg mx] mn].
    cbv zeta. cbn [Fields]. destruct (0 <? len (unreachableTimes pm)).
    + apply in_or_app. left. right. left. reflexivity.
    + right. left. reflexivity.
Qed.

(** ** Binary64: the order *)

Ltac compare_cases :=
  repeat match goal with
    | |- context [Z.compare ?a ?b] => destruct (Z.compare_spec a b)
    | |- context [Pos.compare_cont Eq ?a ?b] =>
        change (Pos.compare_cont Eq a b) with (Pos.compare a b);
        destruct (Pos.compare_spec a b)
    end.

Lemma SFleb_trans (x y z : spec_float) :
  SFleb x y = true -> SFleb y z = true -> SFleb x z = true.
Proof.
  unfold SFleb.
  destruct x as [[] | [] | | [] mx ex], y as [[] | [] | | [] my ey],
        z as [[] | [] | | [] mz ez];
    cbn [SFcompare]; try reflexivity; try discriminate;
    compare_cases; cbn [CompOpp]; intros; try reflexivity; try discriminate;
    exfalso; lia.
Qed.

Lemma SFleb_total (x y : spec_float) :
  SFeqb x x = true -> SFeqb y y = true -> SFltb x y = false -> SFleb y x = true.
Proof.
  unfold SFleb, SFltb, SFeqb.
  destruct x as [[] | [] | | [] mx ex], y as [[] | [] | | [] my ey];
    cbn [SFcompare]; try reflexivity; try discriminate;
    compare_cases; cbn [CompOpp]; intros; try reflexivity; try discriminate;
    exfalso; lia.
Qed.

Lemma leb_trans (x y z : float) :
  (x <=? y)%float = true -> (y <=? z)%float = true -> (x <=? z)%float = true.
Proof. rewrite !leb_spec. apply SFleb_trans. Qed.

Lemma leb_refl (x : float) : is_number x -> (x <=? x)%float = true.
Proof.
  unfold is_number. rewrite leb_spec, eqb_spec. unfold SFleb, SFeqb.
  destruct (SFcompare (Prim2SF x) (Prim2SF x)) as [[] |]; congruence.
Qed.

Lemma ltb_leb (x y : float) : (x <? y)%float = true -> (x <=? y)%float = true.
Proof.
  rewrite leb_spec, ltb_spec. unfold SFleb, SFltb.
  destruct (SFcompare (Prim2SF x) (Prim2SF y)) as [[] |]; congruence.
Qed.

Lemma not_ltb_leb (x y : float) :
  is_number x -> is_number y -> (x <? y)%float = false -> (y <=? x)%float = true.
Proof. unfold is_number. rewrite leb_spec, ltb_spec, !eqb_spec. apply SFleb_total. Qed.

(** ** The latency statistics *)

(** What the loop of [sendDailyReport] leaves in [sum], [maxTime] and
    [minTime] after the samples [rs]. *)
Lemma send_loop_fold (rs : list PingResult) (sum maxTime minTime : float) :
  let xs := map ResponseTime rs in
  let '(sum', max', min') := fold_left send_loop rs (sum, maxTime, minTime) in
  sum' = fold_left PrimFloat.add xs sum /\
  (max' = maxTime \/ In max' xs) /\
  (min' = minTime \/ In min' xs) /\
  (is_number maxTime -> is_number minTime -> Forall is_number xs ->
   (maxTime <=? max')%float = true /\ (min' <=? minTime)%float = true /\
   Forall (fun x => (min' <=? x)%float = true /\ (x <=? max')%float = true) xs).
Proof.
  revert sum maxTime minTime.
  induction rs as [| r rest IH]; intros sum maxTime minTime; cbn [fold_left map].
  - repeat split; auto using leb_refl.
  - unfold send_loop at 2.
    set (x := ResponseTime r).
    set (max1 := if (maxTime <? x)%float then x else maxTime).
    set (min1 := if (x <? minTime)%float then x else minTime).
    specialize (IH (sum + x)%float max1 min1). cbv zeta in IH.
    destruct (fold_left send_loop rest _) as [[sum' max'] min'].
    destruct IH as (Hsum & Hmax & Hmin & Hord).
    split; [ exact Hsum | ].
    split; [ | split ].
    + destruct Hmax as [-> | Hin]; [ | right; right; exact Hin ].
      subst max1. destruct (maxTime <? x)%float; [ right; left | left ]; reflexivity.
    + destruct Hmin as [-> | Hin]; [ | right; right; exact Hin ].
      subst min1. destruct (x <? minTime)%float; [ right; left | left ]; reflexivity.
    + intros Nmax Nmin Nxs. inversion Nxs as [| ? ? Nx Nrest]; subst.
      fold x in Nx.
      assert (N1 : is_number max1) by (subst max1; destruct (maxTime <? x)%float; assumption).
      assert (N2 : is_number min1) by (subst min1; destruct (x <? minTime)%float; assumption).
      destruct (Hord N1 N2 Nrest) as (Hup & Hdown & Hall).
      assert (Hmax1 : (maxTime <=? max1)%float = true /\ (x <=? max1)%float = true).
      { subst max1. destruct (maxTime <? x)%float eqn:E.
        - split; [ apply ltb_leb, E | apply leb_refl, Nx ].
        - split; [ apply leb_refl, Nmax | apply not_ltb_leb; assumption ]. }
      assert (Hmin1 : (min1 <=? minTime)%float = true /\ (min1 <=? x)%float = true).
      { subst min1. destruct (x <? minTime)%float eqn:E.
        - split; [ apply ltb_leb, E | apply leb_refl, Nx ].
        - split; [ apply leb_refl, Nmin | apply not_ltb_leb; assumption ]. }
      destruct Hmax1 as [Ha Hb], Hmin1 as [Hc Hd].
      split; [ eapply leb_trans; eassumption | ].
      split; [ eapply leb_trans; eassumption | ].
      constructor; [ | exact Hall ].
      split; eapply leb_trans; eassumption.
Qed.

(** Both reports run the same loop. *)
Lemma print_latency_send_latency (pm : PingMonitor) :
  pingResults pm <> [] -> print_latency pm = Some (send_latency pm).
Proof.
  intros Hne. unfold print_latency, send_latency.
  destruct (pingResults pm) as [| first rest]; [ congruence | ].
  change print_loop with send_loop.
  destruct (fold_left send_loop _ _) as [[sum mx] mn]. reflexivity.
Qed.

(** C5, as the code computes it: over a non-empty set of latencies that
    are numbers, the minimum and the maximum are recorded latencies that
    bound every recorded latency, so minimum <= maximum; the average is the
    float64 quotient of the float64 running sum of the latencies by their
    count. Both reports print these three values. *)
Theorem latency_extremes (pm : PingMonitor) :
  pingResults pm <> [] ->
  Forall is_number (latencies pm) ->
  let '(avgTime, maxTime, minTime) := send_latency pm in
  print_latency pm = Some (avgTime, maxTime, minTime) /\
  avgTime = (float_sum (latencies pm) / float64_of_int (len (pingResults pm)))%float /\
  In minTime (latencies pm) /\
  In maxTime (latencies pm) /\
  Forall (fun x => (minTime <=? x)%float = true /\ (x <=? maxTime)%float = true)
         (latencies pm) /\
  (minTime <=? maxTime)%float = true.
Proof.
  intros Hne Hnum. pose proof (print_latency_send_latency pm Hne) as Hprint.
  unfold send_latency, latencies, float_sum in *.
  destruct (pingResults pm) as [| first rest] eqn:E; [ congruence | ].
  pose proof (send_loop_fold (first :: rest) 0 (ResponseTime first) (ResponseTime first)) as H.
  cbv zeta in H.
  destruct (fold_left send_loop (first :: rest) _) as [[sum mx] mn].
  destruct H as (Hsum & Hmax & Hmin & Hord).
  assert (Nfirst : is_number (ResponseTime first)) by (inversion Hnum; assumption).
  destruct (Hord Nfirst Nfirst Hnum) as (_ & _ & Hall).
  assert (Imax : In mx (map ResponseTime (first :: rest)))
    by (destruct Hmax as [-> | ?]; [ left; reflexivity | assumption ]).
  assert (Imin : In mn (map ResponseTime (first :: rest)))
    by (destruct Hmin as [-> | ?]; [ left; reflexivity | assumption ]).
  repeat split; try assumption.
  - now rewrite Hsum.
  - rewrite Forall_forall in Hall. apply (Hall mn Imin).
Qed.

(** ** The two renderings *)

Lemma console_printDailyReport (reportDate : string) (pm : PingMonitor) :
  console (trace (printDailyReport reportDate pm)) = console_report reportDate pm.
Proof. rewrite printDailyReport_trace. apply console_Stdout. Qed.

Lemma In_console_latency (reportDate l : string) (pm : PingMonitor) :
  In l (console_latency pm) -> In l (console_report reportDate pm).
Proof.
  intros H. unfold console_report. apply in_or_app. right. apply in_or_app. now left.
Qed.

Lemma In_console_reachability (reportDate l : string) (pm : PingMonitor) :
  In l (console_reachability pm) -> In l (console_report reportDate pm).
Proof.
  intros H. unfold console_report.
  apply in_or_app. right. apply in_or_app. right. apply in_or_app. now left.
Qed.

Lemma In_console_failures (reportDate l : string) (pm : PingMonitor) :
  In l (console_failures pm) -> In l (console_report reportDate pm).
Proof.
  intros H. unfold console_report.
  apply in_or_app. right. apply in_or_app. right. apply in_or_app. right.
  apply in_or_app. now left.
Qed.

(** C8, as the code renders: both renderings are computed from the same
    monitor state, and their aggregate numbers agree. The success
    count, the failure count, the success rate and the total are the same
    text in the embed's fields and in the console lines. Where a probe
    succeeded, the average, maximum and minimum are the same text in both.
    Where a probe failed, the embed's last field is the failure block (the
    first ten times of day and, beyond ten, one line with the number of
    the others) joined by newlines, and the console prints each line of
    that block. The console is not the larger of the two: it consists of
    its heading, the latency block, the reachability block, the failure
    block and the closing rule, so the interval of the embed's third field
    has no console line, and with no success the embed shows three zeros
    where the console has no latency block. *)
Theorem renderings_agree (reportDate stamp : string) (pm : PingMonitor) :
  len (unreachableTimes pm) < 2 ^ 63 ->
  Forall Time.valid_clock (unreachableTimes pm) ->
  let fields := Fields (daily_embed pm reportDate stamp) in
  let lines := console (trace (printDailyReport reportDate pm)) in
  let successes := Fmt.d (len (pingResults pm)) in
  let failures := Fmt.d (len (unreachableTimes pm)) in
  let total := Fmt.d (len (pingResults pm) + len (unreachableTimes pm)) in
  let rate := Fmt.f 2 (send_successRate pm) in
  let '(avgTime, maxTime, minTime) := send_latency pm in
  lines = console_report reportDate pm /\
  nth_error fields 0 =
    Some {| Name := "📊 応答時間統計";
            Value := "**平均**: " ++ Fmt.f 1 avgTime ++ "ms" ++ nl ++
                     "**最大**: " ++ Fmt.f 1 maxTime ++ "ms" ++ nl ++
                     "**最小**: " ++ Fmt.f 1 minTime ++ "ms";
            Inline := true |} /\
  nth_error fields 1 =
    Some {| Name := "📈 到達性統計";
            Value := "**成功率**: " ++ rate ++ "%" ++ nl ++
                     "**成功回数**: " ++ successes ++ nl ++
                     "**失敗回数**: " ++ failures;
            Inline := true |} /\
  nth_error fields 2 =
    Some {| Name := "⏱️ 監視情報";
            Value := "**総ping回数**: " ++ total ++ nl ++
                     "**監視間隔**: " ++ Duration_String (pingInterval pm);
            Inline := true |} /\
  In ("  成功率: " ++ rate ++ "%" ++ nl) lines /\
  In ("  成功回数: " ++ successes ++ nl) lines /\
  In ("  失敗回数: " ++ failures ++ nl) lines /\
  In ("  総ping回数: " ++ total ++ nl) lines /\
  match pingResults pm with
  | [] =>
      (avgTime, maxTime, minTime) = (0%float, 0%float, 0%float) /\
      console_latency pm = []
  | _ :: _ =>
      In ("  平均: " ++ Fmt.f 1 avgTime ++ "ms" ++ nl) lines /\
      In ("  最大: " ++ Fmt.f 1 maxTime ++ "ms" ++ nl) lines /\
      In ("  最小: " ++ Fmt.f 1 minTime ++ "ms" ++ nl) lines
  end /\
  match unreachableTimes pm with
  | [] => nth_error fields 3 = None /\ console_failures pm = []
  | _ :: _ =>
      let block :=
        List.app (map Time.Format_clock (firstn 10 (unreachableTimes pm)))
                 match skipn 10 (unreachableTimes pm) with
                 | [] => []
                 | _ :: _ =>
                     ["... 他" ++ Fmt.d (len (skipn 10 (unreachableTimes pm))) ++ "件"]
                 end in
      nth_error fields 3 =
        Some {| Name := "⚠️ 到達不能期間";
                Value := Strings.Join block nl;
                Inline := false |} /\
      Forall (fun l => In ("  " ++ l ++ nl) lines) block
  end.
Proof.
  intros Hlen Hvalid. cbv zeta. rewrite console_printDailyReport.
  rewrite <- failure_lines_omitted.
  pose proof (print_latency_send_latency pm) as Hlat.
  pose proof (formatUnreachablePeriods_uncut pm) as Hcut.
  assert (Hzero : pingResults pm = [] -> send_latency pm = (0%float, 0%float, 0%float)).
  { intros E. unfold send_latency. now rewrite E. }
  unfold daily_embed. destruct (send_latency pm) as [[avg mx] mn]. cbv zeta. cbn [Fields].
  assert (Hreach : forall l, In l (console_reachability pm) ->
                             In l (console_report reportDate pm))
    by (intros l; apply In_console_reachability).
  split; [ reflexivity | ].
  split; [ | split; [ | split ] ];
    try (destruct (0 <? len (unreachableTimes pm)); reflexivity).
  split; [ apply Hreach; right; left; reflexivity | ].
  split; [ apply Hreach; right; right; left; reflexivity | ].
  split; [ apply Hreach; right; right; right; left; reflexivity | ].
  split; [ apply Hreach; right; right; right; right; left; reflexivity | ].
  split.
  - unfold console_latency.
    destruct (pingResults pm) as [| p ps] eqn:E.
    + split; [ now apply Hzero | ]. unfold print_latency. rewrite E. reflexivity.
    + assert (Hl : forall l, In l (console_latency pm) -> In l (console_report reportDate pm))
        by (intros l; apply In_console_latency).
      unfold console_latency in Hl. rewrite Hlat in Hl by discriminate.
      repeat split; apply Hl.
      * right; left; reflexivity.
      * right; right; left; reflexivity.
      * right; right; right; left; reflexivity.
  - destruct (unreachableTimes pm) as [| u us] eqn:E.
    + unfold console_failures. rewrite E. split; reflexivity.
    + cbv zeta. rewrite Hcut by (assumption || discriminate).
      change (0 <? len (u :: us)) with true. cbv iota. split; [ reflexivity | ].
      apply Forall_forall. intros l Hin. apply In_console_failures.
      unfold console_failures. rewrite E. change (0 <? len (u :: us)) with true. cbv iota.
      right. apply (in_map (fun l => "  " ++ l ++ nl)). exact Hin.
Qed.

(** ** One tick, in full *)

Ltac probe_cases tk pm :=
  unfold probe, record_probe, latency_of; cbv beta delta [bind get] iota;
  destruct (cmd_err (tick_target tk)) as [e |] eqn:Etarget;
  [ rewrite (pingHost_failure _ _ e pm Etarget);
    unfold Printf; cbv beta delta [modify emit ret] iota;
    destruct (negb (defaultGateway pm =? "")%string);
    [ destruct (cmd_err (tick_gateway tk)) as [ge |] eqn:Egateway;
      [ rewrite (pingHost_failure _ _ ge _ Egateway)
      | rewrite (pingHost_latency _ _ _ Egateway) ]
    | ]
  | rewrite (pingHost_latency _ _ pm Etarget);
    unfold Printf; cbv beta delta [modify emit ret] iota ].

(** The probe of a tick never panics and records its sample. *)
Lemma probe_final (tk : Tick) (pm : PingMonitor) :
  outcome (probe tk pm) = Ok tt /\ final (probe tk pm) = record_probe tk pm.
Proof. probe_cases tk pm; split; reflexivity. Qed.

(** It sends no report and makes no request. *)
Lemma probe_quiet (tk : Tick) (pm : PingMonitor) :
  reports (trace (probe tk pm)) = [] /\ posts (trace (probe tk pm)) = [].
Proof. probe_cases tk pm; split; reflexivity. Qed.

Lemma probe_run (tk : Tick) (pm : PingMonitor) :
  probe tk pm = (Ok tt, record_probe tk pm, trace (probe tk pm)).
Proof.
  destruct (probe_final tk pm) as [Ho Hf].
  destruct (probe tk pm) as [[r pm'] tr]. unfold outcome, final, trace in *.
  cbn [fst snd] in *. congruence.
Qed.

Lemma reports_app (tr1 tr2 : list event) :
  reports (tr1 ++ tr2) = (reports tr1 ++ reports tr2)%list.
Proof. apply flat_map_app. Qed.

Lemma posts_app (tr1 tr2 : list event) :
  posts (tr1 ++ tr2) = (posts tr1 ++ posts tr2)%list.
Proof. apply flat_map_app. Qed.

Lemma outcome_triple {A : Type} (r : result A) (pm : PingMonitor) (tr : list event) :
  outcome (r, pm, tr) = r.
Proof. reflexivity. Qed.

Lemma final_triple {A : Type} (r : result A) (pm : PingMonitor) (tr : list event) :
  final (r, pm, tr) = pm.
Proof. reflexivity. Qed.

Lemma trace_triple {A : Type} (r : result A) (pm : PingMonitor) (tr : list event) :
  trace (r, pm, tr) = tr.
Proof. reflexivity. Qed.

(** A tick, from its two halves. *)
Lemma tick_run (lastDay : string) (tk : Tick) (pm : PingMonitor) :
  tick lastDay tk pm =
    let r := rollover lastDay tk pm in
    match outcome r with
    | Ok day =>
        (Ok day, record_probe tk (final r),
         (trace r ++ trace (probe tk (final r)))%list)
    | Panic msg => (Panic msg, final r, trace r)
    end.
Proof.
  cbv zeta. unfold tick, bind.
  destruct (rollover lastDay tk pm) as [[[day | msg] pm1] tr1];
    unfold outcome, final, trace; cbn [fst snd]; [ | reflexivity ].
  rewrite (probe_run tk pm1). unfold ret, trace. cbn [snd].
  now rewrite app_nil_r.
Qed.

Lemma record_probe_setup (tk : Tick) (pm : PingMonitor) :
  same_setup pm (record_probe tk pm).
Proof.
  unfold record_probe, same_setup.
  destruct (cmd_err (tick_target tk)); cbn; repeat split.
Qed.

Lemma record_probe_samples (tk : Tick) (pm : PingMonitor) :
  samples (record_probe tk pm) = samples pm + 1.
Proof.
  unfold record_probe, samples, len.
  destruct (cmd_err (tick_target tk));
    cbn [pingResults unreachableTimes set_pingResults set_unreachableTimes];
    rewrite length_app; cbn [List.length]; lia.
Qed.

(** X1: on a tick whose probe of the target succeeds, the successes grow
    by exactly one entry, stamped with the tick's time, marked as a success
    and carrying the parsed latency or, failing that, the measured
    duration; the failure timestamps stay as the day-change check left
    them. *)
Theorem successful_probe_records_once (lastDay : string) (tk : Tick) (pm : PingMonitor) :
  cmd_err (tick_target tk) = None ->
  let before := final (rollover lastDay tk pm) in
  let after := final (tick lastDay tk pm) in
  pingResults after =
    (pingResults before ++
     [ {| Timestamp := tick_now tk;
          ResponseTime := match parsed_latency (cmd_output (tick_target tk)) with
                          | Some ms => ms
                          | None => (float64_of_int (cmd_elapsed (tick_target tk))
                                     / 1000000)%float
                          end;
          Success := true |} ])%list /\
  unreachableTimes after = unreachableTimes before.
Proof.
  intros Hok before after. subst before after.
  rewrite tick_final. destruct (probe_final tk (final (rollover lastDay tk pm))) as [_ ->].
  unfold record_probe, latency_of. rewrite Hok. split; reflexivity.
Qed.

(** X2: a tick either keeps every sample and adds its own, sending no
    report, or it sends one report for [lastDay], rendered from the
    accumulator as it stood before the tick, and restarts the accumulator
    with its own sample alone. No sample leaves the accumulator without
    having been reported. *)
Theorem tick_keeps_or_reports (lastDay : string) (tk : Tick) (pm : PingMonitor) :
  let r := tick lastDay tk pm in
  (outcome r = Ok lastDay /\
   reports (trace r) = [] /\
   final r = record_probe tk pm)
  \/
  (outcome r = Ok (Time.Format_date (tick_now tk)) /\
   reports (trace r) = [lastDay] /\
   (exists rest,
       trace r = (trace (sendDailyReport lastDay (tick_env tk) pm) ++ rest)%list /\
       reports rest = []) /\
   final r = record_probe tk (set_unreachableTimes [] (set_pingResults [] pm)) /\
   samples (final r) = 1).
Proof.
  cbv zeta. rewrite tick_run, rollover_run. cbv zeta.
  destruct (negb (Time.Format_date (tick_now tk) =? lastDay)%string
            && (0 <? len (pingResults pm))).
  - right. rewrite !outcome_triple, !final_triple, !trace_triple.
    destruct (probe_quiet tk (set_unreachableTimes [] (set_pingResults [] pm))) as [Hq _].
    repeat split.
    + rewrite reports_app, reports_sendDailyReport, Hq. reflexivity.
    + eexists. split; [ reflexivity | exact Hq ].
    + rewrite record_probe_samples. reflexivity.
  - left. rewrite !outcome_triple, !final_triple, !trace_triple. cbn [app].
    destruct (probe_quiet tk pm) as [Hq _]. repeat split. exact Hq.
Qed.

(** ** The loop *)

Lemma same_setup_refl (pm : PingMonitor) : same_setup pm pm.
Proof. unfold same_setup. repeat split. Qed.

Lemma same_setup_trans (pm1 pm2 pm3 : PingMonitor) :
  same_setup pm1 pm2 -> same_setup pm2 pm3 -> same_setup pm1 pm3.
Proof.
  unfold same_setup. intros (A1 & A2 & A3 & A4 & A5 & A6 & A7) (B1 & B2 & B3 & B4 & B5 & B6 & B7).
  repeat split; congruence.
Qed.

(** With [stopChan] closed and no tick taken in its place, the loop
    returns. *)
Lemma pingLoop_from_stopped (lastDay : string) (tk : Tick) (rest : list Tick)
      (pm : PingMonitor) :
  stopChan pm = chan_closed ->
  tick_beats_stop tk = false ->
  pingLoop_from lastDay (tk :: rest) pm = (Ok lastDay, pm, []).
Proof.
  intros Hclosed Hlost. cbn [pingLoop_from]. cbv beta delta [bind get] iota.
  rewrite Hclosed, Hlost. reflexivity.
Qed.

Lemma tick_same_day (tk : Tick) (pm : PingMonitor) :
  tick (Time.Format_date (tick_now tk)) tk pm =
    (Ok (Time.Format_date (tick_now tk)), record_probe tk pm, trace (probe tk pm)).
Proof.
  rewrite tick_run, rollover_run. cbv zeta. rewrite String.eqb_refl. reflexivity.
Qed.

(** A tick never panics and touches nothing but the accumulator. *)
Lemma tick_setup (lastDay : string) (tk : Tick) (pm : PingMonitor) :
  exists day, outcome (tick lastDay tk pm) = Ok day /\
              same_setup pm (final (tick lastDay tk pm)).
Proof.
  rewrite tick_run, rollover_run. cbv zeta.
  destruct (negb _ && _); rewrite !outcome_triple, !final_triple;
    eexists; (split; [ reflexivity | ]).
  - eapply same_setup_trans; [ | apply record_probe_setup ].
    unfold same_setup. cbn. repeat split.
  - apply record_probe_setup.
Qed.

(** A tick that the [select] takes, then the rest of the loop. *)
Lemma pingLoop_from_cons (lastDay : string) (tk : Tick) (rest : list Tick)
      (pm : PingMonitor) (day : string) (pm1 : PingMonitor) (tr1 : list event) :
  stopChan pm = chan_open \/ tick_beats_stop tk = true ->
  tick lastDay tk pm = (Ok day, pm1, tr1) ->
  pingLoop_from lastDay (tk :: rest) pm =
    (outcome (pingLoop_from day rest pm1), final (pingLoop_from day rest pm1),
     (tr1 ++ trace (pingLoop_from day rest pm1))%list).
Proof.
  intros Htaken Htick. cbn [pingLoop_from]. cbv beta delta [bind get] iota.
  assert (Hbody : match stopChan pm, tick_beats_stop tk with
                  | chan_closed, false => ret lastDay
                  | _, _ => bind (tick lastDay tk) (fun day => pingLoop_from day rest)
                  end = bind (tick lastDay tk) (fun day => pingLoop_from day rest)).
  { destruct Htaken as [-> | ->]; [ reflexivity | ].
    destruct (stopChan pm); reflexivity. }
  unfold bind in Hbody. rewrite Hbody, Htick. cbn [app].
  destruct (pingLoop_from day rest pm1) as [[r pm2] tr2]. reflexivity.
Qed.

(** The loop touches nothing but the accumulator. *)
Lemma pingLoop_from_setup (lastDay : string) (ticks : list Tick) (pm : PingMonitor) :
  same_setup pm (final (pingLoop_from lastDay ticks pm)).
Proof.
  revert lastDay pm. induction ticks as [| tk rest IH]; intros lastDay pm.
  - apply same_setup_refl.
  - assert (Htaken : (stopChan pm = chan_open \/ tick_beats_stop tk = true) \/
                     (stopChan pm = chan_closed /\ tick_beats_stop tk = false)).
    { destruct (stopChan pm); [ now left; left | ].
      destruct (tick_beats_stop tk); [ now left; right | now right ]. }
    destruct Htaken as [Htaken | [Hclosed Hlost]].
    + destruct (tick_setup lastDay tk pm) as (day & Hday & Hsetup).
      destruct (tick lastDay tk pm) as [[r pm1] tr1] eqn:Htick.
      rewrite outcome_triple in Hday. rewrite final_triple in Hsetup. subst r.
      rewrite (pingLoop_from_cons _ _ _ _ _ _ _ Htaken Htick), final_triple.
      eapply same_setup_trans; [ exact Hsetup | apply IH ].
    + rewrite (pingLoop_from_stopped _ _ _ _ Hclosed Hlost). apply same_setup_refl.
Qed.

(** X3: the loop never panics, never closes the stop channel and never
    changes the target, the interval, the configuration, the gateway, the
    local address or the running flag: whatever the ticks bring, only the
    accumulator differs afterwards. *)
Theorem pingLoop_keeps_setup (lastDay : string) (ticks : list Tick) (pm : PingMonitor) :
  exists day,
    outcome (pingLoop_from lastDay ticks pm) = Ok day /\
    same_setup pm (final (pingLoop_from lastDay ticks pm)).
Proof.
  revert lastDay pm. induction ticks as [| tk rest IH]; intros lastDay pm.
  - exists lastDay. split; [ reflexivity | apply same_setup_refl ].
  - assert (Htaken : (stopChan pm = chan_open \/ tick_beats_stop tk = true) \/
                     (stopChan pm = chan_closed /\ tick_beats_stop tk = false)).
    { destruct (stopChan pm); [ now left; left | ].
      destruct (tick_beats_stop tk); [ now left; right | now right ]. }
    destruct Htaken as [Htaken | [Hclosed Hlost]].
    + destruct (tick_setup lastDay tk pm) as (day & Hday & Hsetup).
      destruct (tick lastDay tk pm) as [[r pm1] tr1] eqn:Htick.
      rewrite outcome_triple in Hday. rewrite final_triple in Hsetup. subst r.
      rewrite (pingLoop_from_cons _ _ _ _ _ _ _ Htaken Htick).
      rewrite outcome_triple, final_triple.
      destruct (IH day pm1) as (day' & Hout & Hsetup').
      exists day'. split; [ exact Hout | ].
      eapply same_setup_trans; eassumption.
    + rewrite (pingLoop_from_stopped _ _ _ _ Hclosed Hlost).
      exists lastDay. split; [ reflexivity | apply same_setup_refl ].
Qed.

(** The loop over ticks of the day [lastDay], on an open channel. *)
Lemma pingLoop_from_same_day (lastDay : string) (ticks : list Tick) (pm : PingMonitor) :
  stopChan pm = chan_open ->
  on_date lastDay ticks ->
  let r := pingLoop_from lastDay ticks pm in
  outcome r = Ok lastDay /\
  final r = fold_left (fun pm tk => record_probe tk pm) ticks pm /\
  reports (trace r) = [] /\ posts (trace r) = [].
Proof.
  revert pm. induction ticks as [| tk rest IH]; intros pm Hopen Hdate; cbv zeta.
  - repeat split.
  - inversion Hdate as [| ? ? Hnow Hrest]; subst.
    pose proof (tick_same_day tk pm) as Htick.
    rewrite (pingLoop_from_cons _ _ _ _ _ _ _ (or_introl Hopen) Htick).
    rewrite outcome_triple, final_triple, trace_triple.
    assert (Hopen' : stopChan (record_probe tk pm) = chan_open).
    { destruct (record_probe_setup tk pm) as (_ & _ & _ & Hc & _). congruence. }
    destruct (IH (record_probe tk pm) Hopen' Hrest) as (Ho & Hf & Hr & Hp).
    destruct (probe_quiet tk pm) as [Hqr Hqp].
    cbn [fold_left]. repeat split; try assumption.
    + rewrite reports_app, Hqr, Hr. reflexivity.
    + rewrite posts_app, Hqp, Hp. reflexivity.
Qed.

Lemma fold_record_probe_samples (ticks : list Tick) (pm : PingMonitor) :
  samples (fold_left (fun pm tk => record_probe tk pm) ticks pm) = samples pm + len ticks.
Proof.
  revert pm. induction ticks as [| tk rest IH]; intros pm; cbn [fold_left].
  - unfold len. cbn [List.length]. lia.
  - rewrite IH, record_probe_samples. unfold len. cbn [List.length]. lia.
Qed.

Lemma fold_record_probe_setup (ticks : list Tick) (pm : PingMonitor) :
  same_setup pm (fold_left (fun pm tk => record_probe tk pm) ticks pm).
Proof.
  revert pm. induction ticks as [| tk rest IH]; intros pm; cbn [fold_left].
  - apply same_setup_refl.
  - eapply same_setup_trans; [ apply record_probe_setup | apply IH ].
Qed.

(** X4: while the date of the ticks is the date the loop was started on,
    and the stop channel is open, the loop handles every tick, sends no
    report and makes no request, and the accumulator gains exactly one
    sample per tick. *)
Theorem same_day_loop_counts_every_tick (lastDay : string) (ticks : list Tick)
        (pm : PingMonitor) :
  stopChan pm = chan_open ->
  on_date lastDay ticks ->
  let r := pingLoop_from lastDay ticks pm in
  outcome r = Ok lastDay /\
  samples (final r) = samples pm + len ticks /\
  reports (trace r) = [] /\ posts (trace r) = [].
Proof.
  intros Hopen Hdate r. subst r.
  destruct (pingLoop_from_same_day lastDay ticks pm Hopen Hdate) as (Ho & Hf & Hr & Hp).
  rewrite Hf, fold_record_probe_samples. repeat split; assumption.
Qed.

(** ** Probes started *)

Lemma execs_app (tr1 tr2 : list event) :
  execs (tr1 ++ tr2) = (execs tr1 ++ execs tr2)%list.
Proof. apply flat_map_app. Qed.

Lemma execs_Stdout (lines : list string) : execs (map Stdout lines) = [].
Proof. induction lines; cbn; auto. Qed.

Lemma execs_sendDailyReport (reportDate : string) (env : ReportEnv) (pm : PingMonitor) :
  execs (trace (sendDailyReport reportDate env pm)) = [].
Proof.
  rewrite sendDailyReport_trace.
  destruct (_ || _); [ | destruct (webhook env) as [? | status ?];
                                  [ | destruct (status =? 204) ] ];
    cbn [execs flat_map app]; fold (execs (map Stdout (console_report reportDate pm)));
    rewrite ?execs_Stdout; reflexivity.
Qed.

Lemma execs_probe (tk : Tick) (pm : PingMonitor) :
  execs (trace (probe tk pm)) =
    ping_argv (targetIP pm) ::
    match cmd_err (tick_target tk) with
    | None => []
    | Some _ =>
        if negb (defaultGateway pm =? "")%string
        then [ping_argv (defaultGateway pm)] else []
    end.
Proof. probe_cases tk pm; reflexivity. Qed.

(** X7: a tick starts [ping] against the target exactly once. It starts
    [ping] against the gateway exactly once more when the target did not
    answer and a gateway is known, and never when the target answered; the
    report of a day change starts no command. *)
Theorem gateway_probed_only_after_failure (lastDay : string) (tk : Tick) (pm : PingMonitor) :
  execs (trace (tick lastDay tk pm)) =
    ping_argv (targetIP pm) ::
    match cmd_err (tick_target tk) with
    | None => []
    | Some _ =>
        if negb (defaultGateway pm =? "")%string
        then [ping_argv (defaultGateway pm)] else []
    end.
Proof.
  rewrite tick_run, rollover_run. cbv zeta.
  destruct (negb _ && _); rewrite !outcome_triple, !final_triple, !trace_triple.
  - rewrite execs_app, execs_sendDailyReport.
    rewrite (execs_probe tk (set_unreachableTimes [] (set_pingResults [] pm))).
    reflexivity.
  - cbn [app]. apply execs_probe.
Qed.

(** ** Reports leave the monitor alone *)

(** X8: [sendDailyReport] and [printDailyReport] return normally and leave
    every field of the monitor as it was, whatever the webhook answers: a
    report never clears or alters the statistics it shows. *)
Theorem reports_only_read (reportDate : string) (env : ReportEnv) (pm : PingMonitor) :
  outcome (sendDailyReport reportDate env pm) = Ok tt /\
  final (sendDailyReport reportDate env pm) = pm /\
  outcome (printDailyReport reportDate pm) = Ok tt /\
  final (printDailyReport reportDate pm) = pm.
Proof.
  rewrite (reads_run _ pm (reads_sendDailyReport reportDate env)).
  rewrite (reads_run _ pm (reads_printDailyReport reportDate)).
  repeat split.
Qed.

(** ** Startup *)

Lemma getDefaultGateway_run (primary secondary : option string) (pm : PingMonitor) :
  exists gateway tr,
    getDefaultGateway primary secondary pm = (Ok gateway, pm, tr) /\
    reports tr = [] /\ posts tr = [] /\ console tr = [].
Proof.
  unfold getDefaultGateway. cbv beta delta [bind emit ret] iota.
  destruct (primary_gateway primary) as [g |].
  - eexists. eexists. split; [ reflexivity | repeat split ].
  - destruct (negb (GOOS =? "windows")%string).
    + destruct secondary as [output |];
        [ destruct (scan_route_n (Scan.Split_lines output)) | ];
        eexists; eexists; (split; [ reflexivity | repeat split ]).
    + eexists. eexists. split; [ reflexivity | repeat split ].
Qed.

(** [NewPingMonitor] on a configuration that loads. *)
Lemma NewPingMonitor_body_loaded (configFile data : string) (cfg : Config) (env : Startup) :
  config_read env = inl data ->
  unmarshal env data = inl cfg ->
  exists gateway tr,
    getDefaultGateway (route_primary env) (route_secondary env) (set_config cfg new_monitor)
      = (Ok gateway, set_config cfg new_monitor, tr) /\
    console tr = [] /\
    NewPingMonitor_body configFile env new_monitor =
      (Ok None, NewPingMonitor cfg gateway (getLocalIP (dialled env)),
       ((if (DiscordWebhookURL cfg =? "")%string
            || Strings.Contains (DiscordWebhookURL cfg) "YOUR_WEBHOOK"
         then [Stdout ("警告: Discord Webhook URLが設定されていません。config.jsonを編集してください。" ++ nl)]
         else []) ++
        tr ++
        [ Stdout ("デフォルトゲートウェイ: " ++ gateway ++ nl);
          Stdout ("送信元IPアドレス: " ++ getLocalIP (dialled env) ++ nl) ])%list).
Proof.
  intros Hread Hparse.
  destruct (getDefaultGateway_run (route_primary env) (route_secondary env)
              (set_config cfg new_monitor)) as (gateway & tr & Hgw & _ & _ & Hconsole).
  exists gateway, tr. split; [ exact Hgw | split; [ exact Hconsole | ] ].
  unfold NewPingMonitor_body, loadConfig. rewrite Hread, Hparse.
  unfold Println, Printf. cbv beta delta [bind modify get emit ret] iota.
  cbn [config set_config].
  destruct ((DiscordWebhookURL cfg =? "")%string
            || Strings.Contains (DiscordWebhookURL cfg) "YOUR_WEBHOOK"); rewrite Hgw;
    cbn [app]; rewrite ?app_nil_r; reflexivity.
Qed.

(** X9: with a configuration file that can be read and decoded, startup
    succeeds whatever the route commands and the socket do. The monitor
    it returns has the decoded configuration, the discovered gateway and
    local address, target 8.8.8.8, an interval of one second, an open stop
    channel and an empty accumulator. *)
Theorem startup_needs_only_the_config (configFile data : string) (cfg : Config)
        (env : Startup) :
  config_read env = inl data ->
  unmarshal env data = inl cfg ->
  let r := NewPingMonitor_body configFile env new_monitor in
  outcome r = Ok None /\
  exists gateway,
    outcome (getDefaultGateway (route_primary env) (route_secondary env) new_monitor)
      = Ok gateway /\
    final r = NewPingMonitor cfg gateway (getLocalIP (dialled env)) /\
    samples (final r) = 0 /\ stopChan (final r) = chan_open.
Proof.
  intros Hread Hparse r. subst r.
  destruct (NewPingMonitor_body_loaded configFile data cfg env Hread Hparse)
    as (gateway & tr & Hgw & _ & ->).
  rewrite outcome_triple, final_triple. split; [ reflexivity | ].
  exists gateway. split; [ | repeat split ].
  destruct (getDefaultGateway_run (route_primary env) (route_secondary env) new_monitor)
    as (gateway' & tr' & Hgw' & _).
  rewrite Hgw'. rewrite outcome_triple. f_equal.
  unfold getDefaultGateway in Hgw, Hgw'. cbv beta delta [bind emit ret] iota in Hgw, Hgw'.
  destruct (primary_gateway (route_primary env));
    [ | destruct (negb (GOOS =? "windows")%string);
        [ destruct (route_secondary env) as [output |];
          [ destruct (scan_route_n (Scan.Split_lines output)) | ] | ] ];
    congruence.
Qed.

Lemma prefix_append (s1 s2 : string) : String.prefix s1 (s1 ++ s2) = true.
Proof.
  induction s1 as [| c s1 IH]; cbn.
  - now destruct s2.
  - destruct (ascii_dec c c); [ exact IH | congruence ].
Qed.

(** X10: when [NewPingMonitor] returns an error, it is a configuration
    error: the message starts by naming the configuration file, and
    nothing was printed and no command started before it: discovery is not
    attempted on a configuration that does not load. *)
Theorem config_error_aborts_startup (configFile : string) (env : Startup) :
  let r := NewPingMonitor_body configFile env new_monitor in
  outcome r <> Ok None ->
  trace r = [] /\
  final r = new_monitor /\
  exists msg, outcome r = Ok (Some msg) /\
              String.prefix ("設定ファイル " ++ configFile) msg = true.
Proof.
  cbv zeta. intros Herr.
  destruct (config_read env) as [data | e] eqn:Hread.
  - destruct (unmarshal env data) as [cfg | e] eqn:Hparse.
    + destruct (NewPingMonitor_body_loaded configFile data cfg env Hread Hparse)
        as (gateway & tr & _ & _ & Hrun).
      rewrite Hrun, outcome_triple in Herr. congruence.
    + unfold NewPingMonitor_body, loadConfig. rewrite Hread, Hparse.
      cbv beta delta [bind ret] iota.
      rewrite outcome_triple, final_triple, trace_triple. repeat split.
      eexists. split; [ reflexivity | ].
      rewrite <- (append_assoc "設定ファイル " configFile). apply prefix_append.
  - unfold NewPingMonitor_body, loadConfig. rewrite Hread.
    cbv beta delta [bind ret] iota.
    rewrite outcome_triple, final_triple, trace_triple. repeat split.
    eexists. split; [ reflexivity | ].
    rewrite <- (append_assoc "設定ファイル " configFile). apply prefix_append.
Qed.

Lemma console_app (tr1 tr2 : list event) :
  console (tr1 ++ tr2) = (console tr1 ++ console tr2)%list.
Proof. apply flat_map_app. Qed.

(** The requests of one report. *)
Lemma posts_sendDailyReport (reportDate : string) (env : ReportEnv) (pm : PingMonitor) :
  posts (trace (sendDailyReport reportDate env pm)) =
    if (DiscordWebhookURL (config pm) =? "")%string
       || Strings.Contains (DiscordWebhookURL (config pm)) "YOUR_WEBHOOK"
    then []
    else [(DiscordWebhookURL (config pm),
           {| Embeds := [daily_embed pm reportDate (now_RFC3339 env)] |})].
Proof.
  rewrite sendDailyReport_trace.
  destruct (_ || _); [ | destruct (webhook env) as [? | status ?];
                          [ | destruct (status =? 204) ] ];
    cbn [posts flat_map app]; fold (posts (map Stdout (console_report reportDate pm)));
    rewrite ?posts_Stdout; reflexivity.
Qed.

(** A loop on a monitor whose URL is empty or the placeholder makes no
    request, whatever the ticks. *)
Lemma pingLoop_from_console_only (lastDay : string) (ticks : list Tick) (pm : PingMonitor) :
  (DiscordWebhookURL (config pm) =? "")%string
  || Strings.Contains (DiscordWebhookURL (config pm)) "YOUR_WEBHOOK" = true ->
  posts (trace (pingLoop_from lastDay ticks pm)) = [].
Proof.
  revert lastDay pm. induction ticks as [| tk rest IH]; intros lastDay pm Hurl.
  - reflexivity.
  - assert (Htaken : (stopChan pm = chan_open \/ tick_beats_stop tk = true) \/
                     (stopChan pm = chan_closed /\ tick_beats_stop tk = false)).
    { destruct (stopChan pm); [ now left; left | ].
      destruct (tick_beats_stop tk); [ now left; right | now right ]. }
    destruct Htaken as [Htaken | [Hclosed Hlost]].
    + destruct (tick_setup lastDay tk pm) as (day & Hday & Hsetup).
      assert (Hquiet : posts (trace (tick lastDay tk pm)) = []).
      { rewrite tick_run, rollover_run. cbv zeta.
        destruct (negb _ && _); rewrite !outcome_triple, !final_triple, !trace_triple.
        - rewrite posts_app, posts_sendDailyReport, Hurl.
          apply (proj2 (probe_quiet tk _)).
        - apply (proj2 (probe_quiet tk pm)). }
      destruct (tick lastDay tk pm) as [[r pm1] tr1] eqn:Htick.
      rewrite outcome_triple in Hday. rewrite final_triple in Hsetup.
      rewrite trace_triple in Hquiet. subst r.
      rewrite (pingLoop_from_cons _ _ _ _ _ _ _ Htaken Htick), trace_triple.
      rewrite posts_app, Hquiet. cbn [app]. apply IH.
      destruct Hsetup as (_ & _ & _ & _ & Hconfig & _). now rewrite Hconfig.
    + now rewrite (pingLoop_from_stopped _ _ _ _ Hclosed Hlost).
Qed.

(** X11: the warning [loadConfig] prints at startup tells what every later
    report does. [sendDailyReport] tests the URL as [loadConfig] did, and
    the loop never touches the configuration: the warning was printed
    exactly when no report makes a request to the webhook, after whatever
    ticks, for whatever date and whatever the webhook would answer; and
    when it was printed, the reports the loop sends at a day change make no
    request either. *)
Theorem startup_warning_iff_console_only (configFile data : string) (cfg : Config)
        (env : Startup) :
  config_read env = inl data ->
  unmarshal env data = inl cfg ->
  let r := NewPingMonitor_body configFile env new_monitor in
  let warned :=
    In ("警告: Discord Webhook URLが設定されていません。config.jsonを編集してください。" ++ nl)
       (console (trace r)) in
  (warned <->
   forall lastDay ticks reportDate answer,
     posts (trace (sendDailyReport reportDate answer
                     (final (pingLoop_from lastDay ticks (final r))))) = []) /\
  (warned ->
   forall lastDay ticks, posts (trace (pingLoop_from lastDay ticks (final r))) = []).
Proof.
  intros Hread Hparse r warned. subst warned r.
  destruct (NewPingMonitor_body_loaded configFile data cfg env Hread Hparse)
    as (gateway & tr & _ & Hconsole & ->).
  rewrite final_triple, trace_triple.
  rewrite !console_app, Hconsole.
  set (pm0 := NewPingMonitor cfg gateway (getLocalIP (dialled env))).
  assert (Hconfig : forall lastDay ticks,
             config (final (pingLoop_from lastDay ticks pm0)) = cfg).
  { intros lastDay ticks.
    destruct (pingLoop_from_setup lastDay ticks pm0) as (_ & _ & _ & _ & Hc & _).
    now rewrite Hc. }
  destruct ((DiscordWebhookURL cfg =? "")%string
            || Strings.Contains (DiscordWebhookURL cfg) "YOUR_WEBHOOK") eqn:Hurl.
  - split.
    + split; [ | intros _; left; reflexivity ].
      intros _ lastDay ticks reportDate answer.
      now rewrite posts_sendDailyReport, Hconfig, Hurl.
    + intros _ lastDay ticks. now apply pingLoop_from_console_only.
  - assert (Hnot : ~ In ("警告: Discord Webhook URLが設定されていません。config.jsonを編集してください。" ++ nl)
                        (console [] ++ [] ++
                         console [Stdout ("デフォルトゲートウェイ: " ++ gateway ++ nl);
                                  Stdout ("送信元IPアドレス: " ++ getLocalIP (dialled env) ++ nl)])%list).
    { cbn. intros [H | [H | []]]; discriminate H. }
    split; [ split | ]; [ intros H; now elim Hnot | | intros H; now elim Hnot ].
    intros H. specialize (H "" [] "" {| now_RFC3339 := ""; webhook := PostError "" |}).
    rewrite posts_sendDailyReport in H. cbn [pingLoop_from] in H.
    unfold ret in H. rewrite final_triple in H. subst pm0.
    cbn [config NewPingMonitor] in H. rewrite Hurl in H. discriminate H.
Qed.

(** ** Gateway discovery *)

Lemma fields_from_nonempty (s word : string) :
  Forall (fun w => w <> "") (Scan.fields_from word s).
Proof.
  revert word. induction s as [| c rest IH]; intros word; cbn [Scan.fields_from].
  - destruct word; constructor; [ discriminate | constructor ].
  - destruct (Scan.is_space c); [ | apply IH ].
    destruct word; [ apply IH | constructor; [ discriminate | apply IH ] ].
Qed.

Lemma scan_route_print_nonempty (lines : list string) (gateway : string) :
  scan_route_print lines = Some gateway -> gateway <> "".
Proof.
  induction lines as [| line rest IH]; cbn [scan_route_print]; [ discriminate | ].
  destruct (_ && _); [ | exact IH ].
  pose proof (fields_from_nonempty line "") as Hne. fold (Scan.Fields line) in Hne.
  destruct (Scan.Fields line) as [| f1 [| f2 [| f3 more_fields]]]; try exact IH.
  intros [= <-]. inversion Hne as [| ? ? _ H2]; subst.
  inversion H2 as [| ? ? _ H3]; subst. inversion H3; assumption.
Qed.

Lemma scan_route_n_nonempty (lines : list string) (gateway : string) :
  scan_route_n lines = Some gateway -> gateway <> "".
Proof.
  induction lines as [| line rest IH]; cbn [scan_route_n]; [ discriminate | ].
  destruct (Scan.HasPrefix line "0.0.0.0"); [ | exact IH ].
  pose proof (fields_from_nonempty line "") as Hne. fold (Scan.Fields line) in Hne.
  destruct (Scan.Fields line) as [| f1 [| f2 more_fields]]; try exact IH.
  intros [= <-]. inversion Hne as [| ? ? _ H2]; subst. inversion H2; assumption.
Qed.

Lemma scan_route_n_none (lines : list string) :
  Forall (fun line => Scan.HasPrefix line "0.0.0.0" = false) lines ->
  scan_route_n lines = None.
Proof.
  induction 1 as [| line rest Hline _ IH]; cbn [scan_route_n]; [ reflexivity | ].
  now rewrite Hline.
Qed.

(** X12: when the first route command, on an output of ASCII text,
    yields no gateway and the second one fails or prints no line that
    starts with 0.0.0.0, the gateway is the fixed address 192.168.1.1. On
    Windows [route print] is the only command started; elsewhere [ip route]
    is followed by [route -n]. *)
Theorem getDefaultGateway_fallback (primary secondary : option string) (pm : PingMonitor) :
  match primary with
  | None => True
  | Some output => Scan.ascii_only output = true
  end ->
  primary_gateway primary = None ->
  match secondary with
  | None => True
  | Some output =>
      Forall (fun line => Scan.HasPrefix line "0.0.0.0" = false) (Scan.Split_lines output)
  end ->
  getDefaultGateway primary secondary pm =
    (Ok "192.168.1.1", pm,
     if (GOOS =? "windows")%string
     then [Exec ["route"; "print"; "0.0.0.0"]]
     else [Exec ["ip"; "route"; "show"; "default"]; Exec ["route"; "-n"]]).
Proof.
  intros _ Hprimary Hsecondary. unfold getDefaultGateway. rewrite Hprimary.
  cbv beta delta [bind emit ret] iota.
  destruct (GOOS =? "windows")%string; cbn [negb]; [ reflexivity | ].
  destruct secondary as [output |]; [ | reflexivity ].
  rewrite (scan_route_n_none _ Hsecondary). reflexivity.
Qed.

(** X13: the gateway [getDefaultGateway] returns is never the empty
    string, given ASCII outputs and a non-empty group in a match of the
    route pattern: so the check [defaultGateway != ""] of the loop holds
    for a monitor that [NewPingMonitor] built. *)
Theorem getDefaultGateway_not_empty (primary secondary : option string) (pm : PingMonitor) :
  match primary with
  | None => True
  | Some output =>
      Scan.ascii_only output = true /\
      match FindStringSubmatch "default via (\d+\.\d+\.\d+\.\d+)" output with
      | _ :: group :: _ => group <> ""
      | _ => True
      end
  end ->
  match secondary with
  | None => True
  | Some output => Scan.ascii_only output = true
  end ->
  exists gateway tr,
    getDefaultGateway primary secondary pm = (Ok gateway, pm, tr) /\ gateway <> "".
Proof.
  intros Hprimary _. unfold getDefaultGateway.
  cbv beta delta [bind emit ret] iota.
  destruct (primary_gateway primary) as [g |] eqn:Hg.
  - exists g. eexists. split; [ reflexivity | ].
    unfold primary_gateway in Hg. destruct primary as [output |]; [ | discriminate ].
    destruct Hprimary as [_ Hgroup].
    destruct (GOOS =? "windows")%string.
    + eapply scan_route_print_nonempty, Hg.
    + destruct (FindStringSubmatch _ output) as [| whole [| group more_groups]];
        try discriminate. now injection Hg as <-.
  - destruct (negb (GOOS =? "windows")%string).
    + destruct secondary as [output |].
      * destruct (scan_route_n (Scan.Split_lines output)) as [g |] eqn:Hscan.
        -- exists g. eexists. split; [ reflexivity | ].
           eapply scan_route_n_nonempty, Hscan.
        -- eexists. eexists. split; [ reflexivity | discriminate ].
      * eexists. eexists. split; [ reflexivity | discriminate ].
    + eexists. eexists. split; [ reflexivity | discriminate ].
Qed.

(** ** The running flag *)

Lemma record_probe_running (b : bool) (tk : Tick) (pm : PingMonitor) :
  record_probe tk (set_running b pm) = set_running b (record_probe tk pm).
Proof. unfold record_probe. destruct (cmd_err (tick_target tk)); reflexivity. Qed.

Lemma probe_running (b : bool) (tk : Tick) (pm : PingMonitor) :
  trace (probe tk (set_running b pm)) = trace (probe tk pm).
Proof.
  unfold probe. cbv beta delta [bind get] iota.
  cbn [targetIP defaultGateway set_running].
  destruct (cmd_err (tick_target tk)) as [e |] eqn:Etarget.
  - rewrite !(pingHost_failure _ _ e _ Etarget).
    unfold Printf. cbv beta delta [modify emit ret] iota.
    destruct (negb (defaultGateway pm =? "")%string); [ | reflexivity ].
    destruct (cmd_err (tick_gateway tk)) as [ge |] eqn:Egateway.
    + rewrite !(pingHost_failure _ _ ge _ Egateway). reflexivity.
    + rewrite !(pingHost_latency _ _ _ Egateway). reflexivity.
  - rewrite !(pingHost_latency _ _ _ Etarget). reflexivity.
Qed.

Lemma sendDailyReport_running (b : bool) (reportDate : string) (env : ReportEnv)
      (pm : PingMonitor) :
  trace (sendDailyReport reportDate env (set_running b pm))
  = trace (sendDailyReport reportDate env pm).
Proof. rewrite !sendDailyReport_trace. reflexivity. Qed.

(** X14: no method reads the [running] flag. A tick behaves the same
    whatever the flag holds, result and events alike, and leaves the flag
    alone; [Stop] overwrites it without looking at it. The flag therefore
    guards nothing. *)
Theorem running_is_never_read (b : bool) (lastDay : string) (tk : Tick)
        (now : Time.t) (env : ReportEnv) (pm : PingMonitor) :
  outcome (tick lastDay tk (set_running b pm)) = outcome (tick lastDay tk pm) /\
  trace (tick lastDay tk (set_running b pm)) = trace (tick lastDay tk pm) /\
  final (tick lastDay tk (set_running b pm)) = set_running b (final (tick lastDay tk pm)) /\
  Stop now env (set_running b pm) = Stop now env pm.
Proof.
  rewrite !tick_run, !rollover_run. cbv zeta. cbn [pingResults set_running].
  split; [ | split; [ | split ] ].
  - destruct (negb _ && _); reflexivity.
  - destruct (negb _ && _); rewrite !outcome_triple, !final_triple, !trace_triple.
    + rewrite sendDailyReport_running.
      change (set_unreachableTimes [] (set_pingResults [] (set_running b pm)))
        with (set_running b (set_unreachableTimes [] (set_pingResults [] pm))).
      now rewrite probe_running.
    + now rewrite probe_running.
  - destruct (negb _ && _); rewrite !outcome_triple, !final_triple.
    + change (set_unreachableTimes [] (set_pingResults [] (set_running b pm)))
        with (set_running b (set_unreachableTimes [] (set_pingResults [] pm))).
      apply record_probe_running.
    + apply record_probe_running.
  - reflexivity.
Qed.

(** X15: on a slice whose length is a Go [int] and whose times are times
    of day, the text of the failure field has at most 1024 bytes before the
    size check, so the check never fires: the field is the failure block
    joined by newlines, never cut and never ending in the ellipsis of the
    cut. *)
Theorem size_check_never_fires (pm : PingMonitor) :
  unreachableTimes pm <> [] ->
  len (unreachableTimes pm) < 2 ^ 63 ->
  Forall Time.valid_clock (unreachableTimes pm) ->
  let full := Strings.Join (failure_lines (unreachableTimes pm)) nl in
  (String.length full <= 1024)%nat /\
  formatUnreachablePeriods pm = full.
Proof.
  intros Hne Hlen Hvalid full. subst full.
  pose proof (Join_length _ nl 73 (failure_lines_short _ Hlen Hvalid)) as Hj.
  pose proof (failure_lines_count (unreachableTimes pm)) as Hc.
  change (String.length nl) with 1%nat in Hj.
  assert (Hfull : (String.length (Strings.Join (failure_lines (unreachableTimes pm)) nl)
                   <= 1024)%nat) by nia.
  split; [ exact Hfull | ].
  rewrite formatUnreachablePeriods_full. cbv zeta.
  destruct (unreachableTimes pm) as [| t ts] eqn:E; [ congruence | ].
  change (len (t :: ts) =? 0) with false. cbv iota.
  apply Nat.ltb_ge in Hfull. now rewrite Hfull.
Qed.

End Properties.

(** * The properties at sample values *)

#[local] Existing Instance sample_runtime.

(** ** Formatting *)

Example Fmt_d_1024 : Fmt.d 1024 = "1024".
Proof. reflexivity. Qed.

Example Fmt_f_one_decimal : Fmt.f 1 12.34 = "12.3".
Proof. vm_compute. reflexivity. Qed.

Example Fmt_f_tie_to_even : Fmt.f 1 0.25 = "0.2".
Proof. vm_compute. reflexivity. Qed.

Example Format_midnight :
  Time.Format_date midnight = "2024-01-02" /\ Time.Format_clock midnight = "00:00:00".
Proof. split; reflexivity. Qed.

(** The URL of the README's configuration makes no request, an empty one
    neither; the URL of [sample_monitor] makes one. *)
Example placeholder_makes_no_request :
  posts (trace (sendDailyReport "2024-01-01" accepted
                  (set_config {| DiscordWebhookURL := placeholder_url |} three_and_one))) = [] /\
  posts (trace (sendDailyReport "2024-01-01" accepted
                  (set_config {| DiscordWebhookURL := "" |} three_and_one))) = [] /\
  map fst (posts (trace (sendDailyReport "2024-01-01" accepted three_and_one)))
    = [webhook_url].
Proof. vm_compute. repeat split. Qed.

(** The example of the specification: 10, 20 and 30 ms and one failure give
    an average of 20.0, a maximum of 30.0, a minimum of 10.0 and 75.00 %. *)
Example three_and_one_console :
  List.app (console_latency three_and_one) (console_reachability three_and_one) =
    [ nl ++ "📊 応答時間統計:" ++ nl;
      "  平均: 20.0ms" ++ nl; "  最大: 30.0ms" ++ nl; "  最小: 10.0ms" ++ nl;
      nl ++ "📈 到達性統計:" ++ nl;
      "  成功率: 75.00%" ++ nl; "  成功回数: 3" ++ nl; "  失敗回数: 1" ++ nl;
      "  総ping回数: 4" ++ nl ].
Proof. vm_compute. reflexivity. Qed.

(** ** Probes of the sample host *)

Example regexp_finds_latency :
  FindStringSubmatch "time=(\d+\.?\d*).*ms" (cmd_output run_fast)
    = ["time=0.350 ms"; "0.350"] /\
  FindStringSubmatch "time=(\d+\.?\d*).*ms" (cmd_output run_answered) = [] /\
  ParseFloat "0.350" = Some 0.35%float /\
  ParseFloat "12.3" = Some 12.3%float.
Proof. vm_compute. repeat split. Qed.

Example pingHost_parsed :
  pingHost "8.8.8.8" run_fast sample_monitor
    = (Ok (0.35%float, None), sample_monitor,
       [Exec ["ping"; "-c"; "1"; "-W"; "3"; "8.8.8.8"]]).
Proof. vm_compute. reflexivity. Qed.

(** Six ticks answered in 0.350 ms each fill a new monitor with the six
    samples of [six_fast]. *)
Example six_fast_ticks :
  let r := pingLoop_from "2024-01-01" (map fast_tick [1; 2; 3; 4; 5; 6]) sample_monitor in
  outcome r = Ok "2024-01-01" /\
  latencies (final r) = latencies six_fast /\
  unreachableTimes (final r) = [].
Proof. vm_compute. repeat split. Qed.

(** ** Day change *)

Lemma rollover_needs_a_success_witness :
  pingResults failures_only = [] /\
  rollover "2024-01-01" first_tick_of_day failures_only
    = (Ok "2024-01-01", failures_only, []).
Proof.
  split; [ reflexivity | ].
  apply (rollover_needs_a_success "2024-01-01" first_tick_of_day failures_only).
  reflexivity.
Defined.

(** A day of failures only, then midnight: the tick sends nothing and the
    failure of the new day joins the one of the old day. *)
Example failures_carry_over :
  let r := tick "2024-01-01" first_tick_of_day failures_only in
  Time.Format_date (tick_now first_tick_of_day) = "2024-01-02" /\
  outcome r = Ok "2024-01-01" /\
  reports (trace r) = [] /\
  unreachableTimes (final r) = [late_evening; midnight].
Proof. vm_compute. repeat split. Qed.

(** Two ticks later, once a probe of the new day has succeeded, the report
    goes out under the old date and counts the samples of the new day. *)
Example stale_report :
  let r := pingLoop_from "2024-01-01"
             [first_tick_of_day; second_tick_of_day; third_tick_of_day] failures_only in
  reports (trace r) = ["2024-01-01"] /\
  exists embed,
    map snd (posts (trace r)) = [ {| Embeds := [embed] |} ] /\
    nth_error (map Value (Fields embed)) 1 =
      Some ("**成功率**: 33.33%" ++ nl ++ "**成功回数**: 1" ++ nl ++ "**失敗回数**: 2").
Proof. vm_compute. split; [ reflexivity | eexists; split; reflexivity ]. Qed.

(** ** Shutdown *)


(** The console report that follows the rejected request. *)
Example rejected_flush_console :
  console_report "2024-01-02" three_and_one =
    [ nl ++ Strings.Repeat "=" 50 ++ nl;
      "📊 Ping Monitor 日次レポート - 2024-01-02" ++ nl;
      Strings.Repeat "=" 50 ++ nl;
      "対象: Google (8.8.8.8)" ++ nl;
      "送信元: 192.168.1.100" ++ nl;
      nl ++ "📊 応答時間統計:" ++ nl;
      "  平均: 20.0ms" ++ nl; "  最大: 30.0ms" ++ nl; "  最小: 10.0ms" ++ nl;
      nl ++ "📈 到達性統計:" ++ nl;
      "  成功率: 75.00%" ++ nl; "  成功回数: 3" ++ nl; "  失敗回数: 1" ++ nl;
      "  総ping回数: 4" ++ nl;
      nl ++ "⚠️ 到達不能時間:" ++ nl;
      "  23:59:59" ++ nl;
      Strings.Repeat "=" 50 ++ nl ++ nl ].
Proof. vm_compute. reflexivity. Qed.

(** An empty monitor is stopped without a word. *)
Example Stop_empty_monitor :
  Stop midnight rejected sample_monitor
  = (Ok tt, set_stopChan chan_closed (set_running false sample_monitor), []).
Proof. vm_compute. reflexivity. Qed.

Lemma Stop_twice_panics_witness :
  stopChan three_and_one = chan_open /\
  let r := (Stop midnight rejected ;; Stop midnight rejected)%go three_and_one in
  outcome r = Panic "close of closed channel" /\
  trace r = trace (Stop midnight rejected three_and_one).
Proof.
  split; [ reflexivity | ].
  apply (Stop_twice_panics midnight midnight rejected rejected three_and_one).
  reflexivity.
Defined.

(** ** Probes *)

Lemma failed_probe_records_once_witness :
  cmd_err (tick_target first_tick_of_day) = Some "exit status 1" /\
  unreachableTimes (final (tick "2024-01-02" first_tick_of_day three_and_one))
    = [late_evening; midnight] /\
  pingResults (final (tick "2024-01-02" first_tick_of_day three_and_one))
    = pingResults three_and_one.
Proof.
  split; [ reflexivity | ].
  destruct (failed_probe_records_once "2024-01-02" first_tick_of_day "exit status 1"
              three_and_one eq_refl) as (Hfail & Hsucc & _).
  split; [ rewrite Hfail | rewrite Hsucc ]; reflexivity.
Defined.

Lemma pingHost_unparsed_output_witness :
  cmd_err run_answered = None /\
  parsed_latency (cmd_output run_answered) = None /\
  0 <= cmd_elapsed run_answered /\
  pingHost "8.8.8.8" run_answered sample_monitor
    = (Ok ((float64_of_int 12300000 / 1000000)%float, None), sample_monitor,
       [Exec ["ping"; "-c"; "1"; "-W"; "3"; "8.8.8.8"]]) /\
  (0 <=? float64_of_int 12300000 / 1000000)%float = true.
Proof.
  split; [ reflexivity | split; [ reflexivity | split; [ cbn; lia | ] ] ].
  assert (Hpos : 0 <= cmd_elapsed run_answered) by (cbn; lia).
  exact (pingHost_unparsed_output "8.8.8.8" run_answered sample_monitor
           eq_refl eq_refl Hpos).
Defined.

(** ** Statistics *)

Lemma latency_extremes_witness :
  pingResults three_and_one <> [] /\
  Forall is_number (latencies three_and_one) /\
  let '(avgTime, maxTime, minTime) := send_latency three_and_one in
  print_latency three_and_one = Some (avgTime, maxTime, minTime) /\
  avgTime = (float_sum (latencies three_and_one)
             / float64_of_int (len (pingResults three_and_one)))%float /\
  In minTime (latencies three_and_one) /\
  In maxTime (latencies three_and_one) /\
  Forall (fun x => (minTime <=? x)%float = true /\ (x <=? maxTime)%float = true)
         (latencies three_and_one) /\
  (minTime <=? maxTime)%float = true.
Proof.
  assert (Hne : pingResults three_and_one <> []) by discriminate.
  assert (Hnum : Forall is_number (latencies three_and_one))
    by (repeat constructor).
  split; [ exact Hne | split; [ exact Hnum | ] ].
  exact (latency_extremes three_and_one Hne Hnum).
Defined.

(** Six probes answered in 0.350 ms each: the running sum rounds upwards,
    the average comes out above the maximum, and the report prints an
    average of 0.4 ms next to a maximum of 0.3 ms. *)
Lemma average_above_maximum :
  pingResults six_fast <> [] /\
  let '(avgTime, maxTime, minTime) := send_latency six_fast in
  (avgTime <=? maxTime)%float = false /\
  (maxTime <? avgTime)%float = true /\
  Fmt.f 1 minTime = "0.3" /\ Fmt.f 1 avgTime = "0.4" /\ Fmt.f 1 maxTime = "0.3".
Proof. split; [ discriminate | vm_compute; repeat split ]. Qed.

(** Six probes answered in 0.050 ms each: here the sum rounds downwards and
    the report prints an average of 0.0 ms under a minimum of 0.1 ms. *)
Example average_below_minimum :
  let '(avgTime, maxTime, minTime) :=
    send_latency (set_pingResults (repeat (success_at late_evening 0.05) 6)
                                  sample_monitor) in
  (avgTime <? minTime)%float = true /\
  Fmt.f 1 minTime = "0.1" /\ Fmt.f 1 avgTime = "0.0" /\ Fmt.f 1 maxTime = "0.1".
Proof. vm_compute. repeat split. Qed.

(** ** Renderings *)

Lemma renderings_agree_witness :
  len (unreachableTimes three_and_one) < 2 ^ 63 /\
  Forall Time.valid_clock (unreachableTimes three_and_one) /\
  nth_error (Fields (daily_embed three_and_one "2024-01-01" "")) 1 =
    Some {| Name := "📈 到達性統計";
            Value := "**成功率**: " ++ Fmt.f 2 (send_successRate three_and_one) ++ "%" ++ nl ++
                     "**成功回数**: " ++ Fmt.d (len (pingResults three_and_one)) ++ nl ++
                     "**失敗回数**: " ++ Fmt.d (len (unreachableTimes three_and_one));
            Inline := true |} /\
  In ("  成功率: " ++ Fmt.f 2 (send_successRate three_and_one) ++ "%" ++ nl)
     (console (trace (printDailyReport "2024-01-01" three_and_one))).
Proof.
  assert (Hlen : len (unreachableTimes three_and_one) < 2 ^ 63) by (cbn; lia).
  assert (Hvalid : Forall Time.valid_clock (unreachableTimes three_and_one))
    by (repeat constructor; cbn; lia).
  split; [ exact Hlen | split; [ exact Hvalid | ] ].
  pose proof (renderings_agree "2024-01-01" "" three_and_one Hlen Hvalid) as H.
  cbv zeta in H. destruct (send_latency three_and_one) as [[avg mx] mn].
  destruct H as (_ & _ & Hfield & _ & Hline & _).
  split; [ exact Hfield | exact Hline ].
Defined.

(** What the console leaves out. With three successes and one failure the
    embed's third field shows the monitoring interval, and no line of the
    console report names an interval or shows its value. After a day
    without a success the embed's first field shows three latencies of
    0.0 ms, and the console report has no latency line. *)
Lemma console_lacks_the_interval :
  let embed := daily_embed three_and_one "2024-01-01" "2024-01-02T00:00:00+09:00" in
  let lines := console (trace (printDailyReport "2024-01-01" three_and_one)) in
  let embed' := daily_embed failures_only "2024-01-01" "2024-01-02T00:00:00+09:00" in
  let lines' := console (trace (printDailyReport "2024-01-01" failures_only)) in
  Duration_String (pingInterval three_and_one) = "1s" /\
  nth_error (map Value (Fields embed)) 2
    = Some ("**総ping回数**: 4" ++ nl ++ "**監視間隔**: 1s") /\
  Forall (fun l => Strings.Contains l "監視間隔" = false /\
                   Strings.Contains l "1s" = false) lines /\
  nth_error (map Value (Fields embed')) 0
    = Some ("**平均**: 0.0ms" ++ nl ++ "**最大**: 0.0ms" ++ nl ++ "**最小**: 0.0ms") /\
  Forall (fun l => Strings.Contains l "平均" = false /\
                   Strings.Contains l "0.0ms" = false) lines'.
Proof.
  cbv zeta. split; [ reflexivity | ]. split; [ vm_compute; reflexivity | ].
  split; [ vm_compute; repeat constructor | ].
  split; [ vm_compute; reflexivity | vm_compute; repeat constructor ].
Qed.

(** ** The loop at sample values *)

Lemma successful_probe_records_once_witness :
  cmd_err (tick_target (fast_tick 1)) = None /\
  pingResults (final (tick "2024-01-01" (fast_tick 1) sample_monitor))
    = [success_at (Time.mk 2024 1 1 12 0 1) 0.35] /\
  unreachableTimes (final (tick "2024-01-01" (fast_tick 1) sample_monitor)) = [].
Proof.
  split; [ reflexivity | ].
  destruct (successful_probe_records_once "2024-01-01" (fast_tick 1) sample_monitor eq_refl)
    as [Hsucc Hfail].
  split; [ rewrite Hsucc | rewrite Hfail ]; vm_compute; reflexivity.
Defined.

Lemma same_day_loop_counts_every_tick_witness :
  stopChan sample_monitor = chan_open /\
  on_date "2024-01-01" noon_ticks /\
  let r := pingLoop_from "2024-01-01" noon_ticks sample_monitor in
  outcome r = Ok "2024-01-01" /\
  samples (final r) = 3 /\
  reports (trace r) = [] /\ posts (trace r) = [].
Proof.
  assert (Hdate : on_date "2024-01-01" noon_ticks) by (repeat constructor).
  split; [ reflexivity | split; [ exact Hdate | ] ].
  exact (same_day_loop_counts_every_tick "2024-01-01" noon_ticks sample_monitor
           eq_refl Hdate).
Defined.

(** [Stop] does not wait for the loop. A tick that the [select] takes
    although the channel is closed is recorded after the flush, and no
    report shows it; the next [select] ends the loop. *)
Example late_tick_misses_the_flush :
  let r := (Stop late_evening accepted ;;
            pingLoop_from "2024-01-01" [late_tick; fast_tick 2])%go three_and_one in
  outcome r = Ok "2024-01-01" /\
  reports (trace r) = ["2024-01-01"] /\
  samples three_and_one = 4 /\ samples (final r) = 5 /\
  exists embed,
    map snd (posts (trace r)) = [ {| Embeds := [embed] |} ] /\
    nth_error (map Value (Fields embed)) 2
      = Some ("**総ping回数**: 4" ++ nl ++ "**監視間隔**: 1s").
Proof. vm_compute. repeat split. eexists. split; reflexivity. Qed.

(** [Stop] while the loop waits for its fourth tick: what the flush
    sends, two successes of 0.350 ms and one failure. *)
Example noon_run_report :
  let r := (pingLoop_from "2024-01-01" noon_ticks ;; Stop late_evening accepted)%go
             sample_monitor in
  exists embed,
    map snd (posts (trace r)) = [ {| Embeds := [embed] |} ] /\
    map Value (Fields embed) =
      [ "**平均**: 0.3ms" ++ nl ++ "**最大**: 0.3ms" ++ nl ++ "**最小**: 0.3ms";
        "**成功率**: 66.67%" ++ nl ++ "**成功回数**: 2" ++ nl ++ "**失敗回数**: 1";
        "**総ping回数**: 3" ++ nl ++ "**監視間隔**: 1s";
        "12:00:02" ].
Proof. vm_compute. eexists. split; reflexivity. Qed.

(** A tick that fails with a gateway known starts two commands. *)
Example failed_tick_commands :
  execs (trace (tick "2024-01-02" first_tick_of_day sample_monitor))
    = [ ["ping"; "-c"; "1"; "-W"; "3"; "8.8.8.8"];
        ["ping"; "-c"; "1"; "-W"; "3"; "192.168.1.1"] ].
Proof. vm_compute. reflexivity. Qed.

Lemma size_check_never_fires_witness :
  unreachableTimes twelve_failures <> [] /\
  len (unreachableTimes twelve_failures) < 2 ^ 63 /\
  Forall Time.valid_clock (unreachableTimes twelve_failures) /\
  formatUnreachablePeriods twelve_failures
    = Strings.Join (failure_lines (unreachableTimes twelve_failures)) nl.
Proof.
  assert (Hne : unreachableTimes twelve_failures <> []) by discriminate.
  assert (Hlen : len (unreachableTimes twelve_failures) < 2 ^ 63) by (cbn; lia).
  assert (Hvalid : Forall Time.valid_clock (unreachableTimes twelve_failures))
    by (repeat constructor; cbn; lia).
  split; [ exact Hne | split; [ exact Hlen | split; [ exact Hvalid | ] ] ].
  exact (proj2 (size_check_never_fires twelve_failures Hne Hlen Hvalid)).
Defined.

Example twelve_failures_field :
  formatUnreachablePeriods twelve_failures =
    "12:00:00" ++ nl ++ "12:00:01" ++ nl ++ "12:00:02" ++ nl ++ "12:00:03" ++ nl ++
    "12:00:04" ++ nl ++ "12:00:05" ++ nl ++ "12:00:06" ++ nl ++ "12:00:07" ++ nl ++
    "12:00:08" ++ nl ++ "12:00:09" ++ nl ++ "... 他2件".
Proof. vm_compute. reflexivity. Qed.

(** ** Startup at sample values *)

Example Split_lines_keeps_empty_pieces :
  Scan.Split_lines ("a" ++ nl ++ nl ++ "b" ++ nl) = ["a"; ""; "b"; ""] /\
  Scan.Split_lines "" = [""].
Proof. split; reflexivity. Qed.

Example Fields_drops_blanks :
  Scan.Fields ("  0.0.0.0   192.168.0.1" ++ cr) = ["0.0.0.0"; "192.168.0.1"] /\
  Scan.Fields "   " = [].
Proof. split; reflexivity. Qed.

Example route_print_gateway :
  scan_route_print (Scan.Split_lines route_print_output) = Some "192.168.1.1".
Proof. vm_compute. reflexivity. Qed.

Example route_n_gateway :
  scan_route_n (Scan.Split_lines route_n_default) = Some "192.168.0.1" /\
  scan_route_n (Scan.Split_lines route_n_output) = None.
Proof. vm_compute. split; reflexivity. Qed.

Example ip_route_gateway :
  IpRoute.find ip_route_output = ["default via 192.168.1.1"; "192.168.1.1"] /\
  IpRoute.find route_n_output = [].
Proof. vm_compute. split; reflexivity. Qed.

(** The older Linux host: [ip] is missing and [route -n] has the route. *)
Example gateway_from_route_n :
  getDefaultGateway None (Some route_n_default) new_monitor
    = (Ok "192.168.0.1", new_monitor,
       [Exec ["ip"; "route"; "show"; "default"]; Exec ["route"; "-n"]]).
Proof. vm_compute. reflexivity. Qed.

Lemma getDefaultGateway_fallback_witness :
  Scan.ascii_only route_n_output = true /\
  primary_gateway (rt := route_runtime) (Some route_n_output) = None /\
  Forall (fun line => Scan.HasPrefix line "0.0.0.0" = false)
         (Scan.Split_lines route_n_output) /\
  getDefaultGateway (rt := route_runtime) (Some route_n_output) (Some route_n_output)
                    new_monitor
    = (Ok "192.168.1.1", new_monitor,
       [Exec ["ip"; "route"; "show"; "default"]; Exec ["route"; "-n"]]).
Proof.
  assert (Hascii : Scan.ascii_only route_n_output = true) by reflexivity.
  assert (Hprimary : primary_gateway (rt := route_runtime) (Some route_n_output) = None)
    by (vm_compute; reflexivity).
  assert (Hlines : Forall (fun line => Scan.HasPrefix line "0.0.0.0" = false)
                          (Scan.Split_lines route_n_output))
    by (vm_compute; repeat constructor).
  split; [ exact Hascii | split; [ exact Hprimary | split; [ exact Hlines | ] ] ].
  exact (getDefaultGateway_fallback (rt := route_runtime) (Some route_n_output)
           (Some route_n_output) new_monitor Hascii Hprimary Hlines).
Defined.

Lemma getDefaultGateway_not_empty_witness :
  Scan.ascii_only ip_route_output = true /\
  FindStringSubmatch (GoRuntime := route_runtime)
    "default via (\d+\.\d+\.\d+\.\d+)" ip_route_output
    = ["default via 192.168.1.1"; "192.168.1.1"] /\
  exists gateway tr,
    getDefaultGateway (rt := route_runtime) (Some ip_route_output) None new_monitor
      = (Ok gateway, new_monitor, tr) /\ gateway <> "".
Proof.
  split; [ reflexivity | split; [ vm_compute; reflexivity | ] ].
  apply (getDefaultGateway_not_empty (rt := route_runtime)
           (Some ip_route_output) None new_monitor).
  - split; [ reflexivity | vm_compute; discriminate ].
  - exact I.
Defined.

Lemma startup_needs_only_the_config_witness :
  config_read (startup_with webhook_url) = inl (config_json webhook_url) /\
  unmarshal (startup_with webhook_url) (config_json webhook_url)
    = inl {| DiscordWebhookURL := webhook_url |} /\
  let r := NewPingMonitor_body (rt := route_runtime) "config.json"
             (startup_with webhook_url) new_monitor in
  outcome r = Ok None /\ samples (final r) = 0 /\ stopChan (final r) = chan_open.
Proof.
  split; [ reflexivity | split; [ reflexivity | ] ].
  destruct (startup_needs_only_the_config (rt := route_runtime) "config.json"
              (config_json webhook_url) {| DiscordWebhookURL := webhook_url |}
              (startup_with webhook_url) eq_refl eq_refl)
    as (Hok & gateway & _ & _ & Hsamples & Hchan).
  cbv zeta. split; [ exact Hok | split; [ exact Hsamples | exact Hchan ] ].
Defined.

(** The monitor of the other examples is the one this startup builds. *)
Example startup_builds_sample_monitor :
  NewPingMonitor_body (rt := route_runtime) "config.json"
    (startup_with webhook_url) new_monitor
  = (Ok None, sample_monitor,
     [ Exec ["ip"; "route"; "show"; "default"];
       Stdout ("デフォルトゲートウェイ: 192.168.1.1" ++ nl);
       Stdout ("送信元IPアドレス: 192.168.1.100" ++ nl) ]).
Proof. vm_compute. reflexivity. Qed.

Lemma config_error_aborts_startup_witness :
  outcome (NewPingMonitor_body "config.json" startup_without_file new_monitor) <> Ok None /\
  trace (NewPingMonitor_body "config.json" startup_without_file new_monitor) = [] /\
  final (NewPingMonitor_body "config.json" startup_without_file new_monitor) = new_monitor.
Proof.
  assert (Herr : outcome (NewPingMonitor_body "config.json" startup_without_file new_monitor)
                 <> Ok None) by (vm_compute; discriminate).
  split; [ exact Herr | ].
  destruct (config_error_aborts_startup "config.json" startup_without_file Herr)
    as (Htrace & Hfinal & _).
  split; [ exact Htrace | exact Hfinal ].
Defined.

Example missing_file_message :
  outcome (NewPingMonitor_body "config.json" startup_without_file new_monitor)
  = Ok (Some ("設定ファイル config.json が見つかりません: " ++
              "open config.json: no such file or directory")).
Proof. vm_compute. reflexivity. Qed.

Lemma startup_warning_iff_console_only_witness :
  config_read (startup_with placeholder_url) = inl (config_json placeholder_url) /\
  unmarshal (startup_with placeholder_url) (config_json placeholder_url)
    = inl {| DiscordWebhookURL := placeholder_url |} /\
  forall lastDay ticks reportDate answer,
    posts (trace (sendDailyReport reportDate answer
                    (final (pingLoop_from lastDay ticks
                              (final (NewPingMonitor_body "config.json"
                                        (startup_with placeholder_url) new_monitor)))))) = [].
Proof.
  split; [ reflexivity | split; [ reflexivity | ] ].
  destruct (startup_warning_iff_console_only "config.json" (config_json placeholder_url)
              {| DiscordWebhookURL := placeholder_url |} (startup_with placeholder_url)
              eq_refl eq_refl) as [[Hquiet _] _].
  apply Hquiet. vm_compute. left. reflexivity.
Defined.

(** The README's configuration: the warning, then the two lines of
    [NewPingMonitor]. *)
Example placeholder_startup_console :
  console (trace (NewPingMonitor_body "config.json" (startup_with placeholder_url)
                    new_monitor)) =
    [ "警告: Discord Webhook URLが設定されていません。config.jsonを編集してください。" ++ nl;
      "デフォルトゲートウェイ: 192.168.1.1" ++ nl;
      "送信元IPアドレス: 192.168.1.100" ++ nl ].
Proof. vm_compute. reflexivity. Qed.
